(** * sqliteORM: field validation, DDL compilation and migration application

    A shallow embedding of [orm/orm.py]: the field classes with their
    constructor checks and [to_sql], [Model.get_column_details],
    [DatabaseSchemaEditor.generate_table], the singleton
    [MigrationManager] and the singleton [DataBaseConnector] with
    [exec_create_query].  Python exceptions are results in a sum type,
    the class-level singleton slots and the connection are explicit
    state. *)

From Stdlib Require Import ZArith String Ascii List Bool Lia DecimalString.
Import ListNotations.

Local Open Scope string_scope.
Local Open Scope Z_scope.

(** ** Python values and exceptions *)

Module Py.

(** The values that reach the keyword arguments of the field
    constructors: [None], booleans, integers, strings, and objects of
    any other type (a float, a list, ...), of which only the truth
    value and the text of [str] matter here. *)
Inductive value : Type :=
| PNone
| PBool (b : bool)
| PInt (z : Z)
| PStr (s : string)
| PObj (truth : bool) (text : string).

Inductive exn : Type :=
| ValueError (msg : string)
| TypeError (msg : string)
| KeyError (key : string)
| AttributeError (msg : string)
| OperationalError (msg : string)
| ProgrammingError (msg : string)
| Exception (msg : string).

(** [str(e)] *)
Definition exn_str (e : exn) : string :=
  match e with
  | ValueError msg | TypeError msg | AttributeError msg | OperationalError msg
  | ProgrammingError msg | Exception msg => msg
  | KeyError key => "'" ++ key ++ "'"
  end.

Definition result (A : Type) : Type := (exn + A)%type.

Definition ret {A} (a : A) : result A := inr a.
Definition raise {A} (e : exn) : result A := inl e.

Definition bind {A B} (c : result A) (k : A -> result B) : result B :=
  match c with
  | inl e => inl e
  | inr a => k a
  end.

(** [bool(v)] *)
Definition truthy (v : value) : bool :=
  match v with
  | PNone => false
  | PBool b => b
  | PInt z => negb (z =? 0)
  | PStr s => negb (s =? "")%string
  | PObj truth _ => truth
  end.

(** [v is None] *)
Definition is_none (v : value) : bool :=
  match v with
  | PNone => true
  | _ => false
  end.

(** [isinstance(v, int)]; [bool] is a subclass of [int]. *)
Definition isinstance_int (v : value) : bool :=
  match v with
  | PBool _ | PInt _ => true
  | _ => false
  end.

(** The integer a value compares as, when it is an [int]. *)
Definition as_int (v : value) : option Z :=
  match v with
  | PBool b => Some (if b then 1 else 0)
  | PInt z => Some z
  | _ => None
  end.

(** [v <= k] and [v > k] against an integer literal, for the values the
    length checks let through to the comparison, which are [int]s; a
    [TypeError] stands for the others. *)
Definition le_int (v : value) (k : Z) : result bool :=
  match as_int v with
  | Some z => ret (z <=? k)
  | None => raise (TypeError "'<=' not supported between these instances")
  end.

Definition gt_int (v : value) (k : Z) : result bool :=
  match as_int v with
  | Some z => ret (z >? k)
  | None => raise (TypeError "'>' not supported between these instances")
  end.

(** [str(z)] for an integer. *)
Definition str_int (z : Z) : string := NilZero.string_of_int (Z.to_int z).

(** [f"{v}"] *)
Definition str (v : value) : string :=
  match v with
  | PNone => "None"
  | PBool true => "True"
  | PBool false => "False"
  | PInt z => str_int z
  | PStr s => s
  | PObj _ text => text
  end.

(** [sep.join(l)] *)
Fixpoint join (sep : string) (l : list string) : string :=
  match l with
  | [] => ""
  | [s] => s
  | s :: rest => s ++ sep ++ join sep rest
  end.

(** [d[k]] on a dict with string keys, kept as the literal's list of
    items. *)
Fixpoint getitem {A} (d : list (string * A)) (k : string) : result A :=
  match d with
  | [] => raise (KeyError k)
  | (k', v) :: d' => if (k' =? k)%string then ret v else getitem d' k
  end.

(** [template.format] with keyword arguments [kwargs], for templates whose replacement fields
    are plain names in braces, as all templates of the module are.
    [field] is [Some name] while the scan is inside a replacement
    field. *)
Fixpoint format_from (field : option string) (template : string)
         (kwargs : list (string * string)) : result string :=
  match template with
  | EmptyString =>
      match field with
      | None => ret ""
      | Some _ => raise (ValueError "expected '}' before end of string")
      end
  | String c rest =>
      match field with
      | None =>
          if (c =? "{")%char then format_from (Some "") rest kwargs
          else bind (format_from None rest kwargs)
                    (fun out => ret (String c out))
      | Some name =>
          if (c =? "}")%char
          then bind (getitem kwargs name)
                    (fun v => bind (format_from None rest kwargs)
                                   (fun out => ret (v ++ out)))
          else format_from (Some (name ++ String c "")) rest kwargs
      end
  end.

Definition format := format_from None.

(** [s.lower()] for a string of ASCII characters only.  On other
    strings Python lowers with the Unicode case tables, which this
    function does not follow; it serves for the ASCII class names that
    are written out in this file. *)
Definition lower_ascii (c : ascii) : ascii :=
  let n := nat_of_ascii c in
  if (Nat.leb 65 n && Nat.leb n 90)%bool then ascii_of_nat (n + 32) else c.

Fixpoint ascii_lower (s : string) : string :=
  match s with
  | EmptyString => EmptyString
  | String c rest => String (lower_ascii c) (ascii_lower rest)
  end.

End Py.

Import Py.

Declare Scope py_scope.
Delimit Scope py_scope with py.
Notation "x <- c ;; k" := (bind c (fun x => k))
  (at level 61, c at next level, right associativity) : py_scope.
Notation "c ;;; k" := (bind c (fun _ => k))
  (at level 61, right associativity) : py_scope.
Local Open Scope py_scope.

(** ** Fields *)

(** Mapping of field types to SQLite data types. *)
Definition field_mapper : list (string * string) :=
  [ ("CharField", "VARCHAR");
    ("TextField", "TEXT");
    ("IntegerField", "INTEGER");
    ("DecimalField", "DECIMAL");
    ("FloatField", "NUMERIC");
    ("DateTimeField", "TEXT");
    ("BooleanField", "INTEGER");
    ("ImageField", "TEXT");
    ("FileField", "TEXT") ].

(** Mapping of relationship types to SQLite constraints. *)
Definition relationship_mapper : list (string * string) :=
  [ ("PrimaryKey", "{field_type} NOT NULL PRIMARY KEY");
    ("AutoField", "INTEGER NOT NULL PRIMARY KEY AUTOINCREMENT");
    ("OneToOneField",
     "{field_type} NOT NULL UNIQUE REFERENCES {reference_table} ({ref_field_name}) DEFERRABLE INITIALLY DEFERRED");
    ("ForeignKey",
     "{field_type} NOT NULL UNIQUE REFERENCES {reference_table} ({ref_field_name}) DEFERRABLE INITIALLY DEFERRED") ].

(** The concrete subclasses of [Field]. *)
Inductive field_class : Type :=
| CharFieldC | TextFieldC | AutoFieldC | IntegerFieldC | DecimalFieldC
| FloatFieldC | DateTimeFieldC | BooleanFieldC | ImageFieldC | FileFieldC.

(** [self.__class__.__name__] *)
Definition class_name (c : field_class) : string :=
  match c with
  | CharFieldC => "CharField"
  | TextFieldC => "TextField"
  | AutoFieldC => "AutoField"
  | IntegerFieldC => "IntegerField"
  | DecimalFieldC => "DecimalField"
  | FloatFieldC => "FloatField"
  | DateTimeFieldC => "DateTimeField"
  | BooleanFieldC => "BooleanField"
  | ImageFieldC => "ImageField"
  | FileFieldC => "FileField"
  end.

(** A field instance: its class and its attributes.  [max_length] is set
    by [CharField] only and [default] by the classes that take one; the
    other classes leave them at [PNone] and never read them. *)
Record Field : Type := mkField {
  cls : field_class;
  primary_key : bool;
  unique : bool;
  null : bool;
  max_length : value;
  default : value
}.

Definition set_null (f : Field) (b : bool) : Field :=
  mkField (cls f) (primary_key f) (unique f) b (max_length f) (default f).

Module FieldBase.

(** [Field.__init__] *)
Definition __init__ (c : field_class) (primary_key unique null : bool) : Field :=
  mkField c primary_key unique null PNone PNone.

Definition check_null (self : Field) : string :=
  if negb (null self) then " NOT NULL" else "".

Definition check_primary_key (self : Field) : string :=
  if primary_key self then " PRIMARY KEY" else "".

Definition check_unique (self : Field) : string :=
  if unique self then " UNIQUE" else "".

Definition check_default (self : Field) : string :=
  if truthy (default self) then " DEFAULT '" ++ str (default self) ++ "'" else "".

(** The instance's methods whose name starts with [check_], in the
    alphabetical order of [dir(self)]. *)
Definition dir_check_methods : list (string * (Field -> string)) :=
  [ ("check_default", check_default);
    ("check_null", check_null);
    ("check_primary_key", check_primary_key);
    ("check_unique", check_unique) ].

Definition method_order : list string :=
  [ "check_null"; "check_primary_key"; "check_unique"; "check_default" ].

(** [method_order.index(x)]; the length of the list stands for the
    [ValueError] of a name that is not listed, which no name of
    [dir_check_methods] meets. *)
Fixpoint index (l : list string) (x : string) : nat :=
  match l with
  | [] => O
  | y :: l' => if (y =? x)%string then O else S (index l' x)
  end.

(** [list.sort(key=...)]: a stable sort on the key. *)
Fixpoint insert_by {A} (key : A -> nat) (a : A) (l : list A) : list A :=
  match l with
  | [] => [a]
  | b :: l' => if Nat.leb (key a) (key b) then a :: l
               else b :: insert_by key a l'
  end.

Definition sort_by {A} (key : A -> nat) (l : list A) : list A :=
  fold_right (insert_by key) [] l.

Definition remaning_definition (self : Field) : string :=
  let check_methods :=
    sort_by (fun m => index method_order (fst m)) dir_check_methods in
  fold_left (fun remaning_constrint m => remaning_constrint ++ snd m self)
            check_methods "".

End FieldBase.

(** Runs the checks of a list in order; the first exception stops the
    loop. *)
Fixpoint run_checks {A} (self : A) (methods : list (string * (A -> result unit)))
  : result unit :=
  match methods with
  | [] => ret tt
  | m :: rest => snd m self ;;; run_checks self rest
  end.

Module CharField.

Definition max_length_msg : string :=
  "max_length can't be None or less than 2 characters and it should be an integer!".

Definition max_length_limit_msg : string :=
  "CharField can not be longer than 255 characters. Use TextField!".

Definition primary_key_msg : string :=
  "When using primary_key=True, do not set anything other than max_length".

Definition unique_default_msg : string :=
  "If using CharField as unique you can't give a default value".

Definition needs_default_msg : string :=
  "If null is False and primary_key=False, then it needs a default value".

(** Check if max_length is valid.  The three tests are joined by [or],
    which stops at the first true one. *)
Definition _check_max_length_and_type (self : Field) : result unit :=
  invalid <- (if negb (isinstance_int (max_length self)) then ret true
              else if is_none (max_length self) then ret true
              else le_int (max_length self) 1) ;;
  if (invalid : bool) then raise (ValueError max_length_msg) else ret tt.

(** Check if max_length is within the limit. *)
Definition _check_max_length_limit (self : Field) : result unit :=
  too_long <- gt_int (max_length self) 255 ;;
  if (too_long : bool) then raise (ValueError max_length_limit_msg) else ret tt.

Definition _basic_checks (self : Field) : result unit :=
  let methods_to_check :=
    [ ("_check_max_length_and_type", _check_max_length_and_type);
      ("_check_max_length_limit", _check_max_length_limit) ] in
  run_checks self methods_to_check.

(** Check if primary key configuration is viable. *)
Definition _primary_key_checks (self : Field) : result unit :=
  if primary_key self
     && (null self || negb (is_none (default self)) || unique self)
  then raise (ValueError primary_key_msg)
  else ret tt.

(** Raises on a default, then sets [self.null = True]. *)
Definition _unique_constraint_checks (self : Field) : result Field :=
  if unique self && truthy (default self)
  then raise (ValueError unique_default_msg)
  else ret (set_null self true).

(** Check if default value is required. *)
Definition _check_for_default_val (self : Field) : result unit :=
  if negb (null self) && negb (truthy (default self))
  then raise (ValueError needs_default_msg)
  else ret tt.

(** [CharField(max_length=None, primary_key=False, unique=False,
    null=False, default=None)] *)
Definition __init__ (max_length' : value) (primary_key' unique' null' : bool)
           (default' : value) : result Field :=
  let self := mkField CharFieldC primary_key' unique' null' max_length' default' in
  _basic_checks self ;;;
  if primary_key self then
    _primary_key_checks self ;;; ret self
  else if unique self then
    (* enforce null as True bc some DB skip that *)
    _unique_constraint_checks self
  else if negb (null self) then
    _check_for_default_val self ;;; ret self
  else ret self.

Definition to_sql (self : Field) : result string :=
  if primary_key self then
    sql <- getitem relationship_mapper "PrimaryKey" ;;
    field_type <- getitem field_mapper (class_name (cls self)) ;;
    format sql [("field_type", field_type ++ "(" ++ str (max_length self) ++ ")")]
  else
    field_type <- getitem field_mapper (class_name (cls self)) ;;
    let sql := field_type ++ "(" ++ str (max_length self) ++ ")" in
    let remaning_definition := FieldBase.remaning_definition self in
    ret (join "" [sql; remaning_definition]).

End CharField.

Definition set_default (f : Field) (d : value) : Field :=
  mkField (cls f) (primary_key f) (unique f) (null f) (max_length f) d.

Module TextField.

(** [TextField(primary_key=False, unique=False, null=True, default=None)] *)
Definition __init__ (primary_key' unique' null' : bool) (default' : value)
  : result Field :=
  let self := FieldBase.__init__ TextFieldC primary_key' unique' null' in
  if primary_key' then raise (ValueError "TEXT fields cannot be set as Primary Key")
  else if unique' then raise (ValueError "TEXT fields cannot be set as UNIQUE")
  else ret (set_default self default').

Definition to_sql (self : Field) : string :=
  let sql := "TEXT" in
  let sql := sql ++ (if negb (null self) then " NOT NULL" else "") in
  let sql := sql ++ (if negb (truthy (default self))
                     then " DEFAULT '" ++ str (default self) ++ "'" else "") in
  sql.

End TextField.

Module AutoField.

(** [AutoField(primary_key=True, unique=False, null=False)] *)
Definition __init__ (primary_key' unique' null' : bool) : result Field :=
  let self := FieldBase.__init__ AutoFieldC primary_key' unique' null' in
  if negb primary_key' then raise (ValueError "You can't provide any value for AutoField")
  else if unique' then raise (ValueError "You can't provide any value for AutoField")
  else if null' then raise (ValueError "You can't provide any value for AutoField")
  else ret self.

Definition to_sql (self : Field) : string := "INTEGER PRIMARY KEY AUTOINCREMENT".

End AutoField.

Module IntegerField.

(** [IntegerField(primary_key=False, unique=False, null=True, default=None)] *)
Definition __init__ (primary_key' unique' null' : bool) (default' : value)
  : result Field :=
  let self := FieldBase.__init__ IntegerFieldC primary_key' unique' null' in
  if primary_key' then raise (ValueError "Instead use AutoField as Primary Key")
  else ret (set_default self default').

Definition to_sql (self : Field) : string :=
  let sql := "INTEGER" in
  let sql := sql ++ (if unique self then " UNIQUE" else "") in
  let sql := sql ++ (if negb (null self) then " NOT NULL" else "") in
  let sql := sql ++ (if negb (truthy (default self))
                     then " DEFAULT " ++ str (default self) else " DEFAULT NULL") in
  sql.

End IntegerField.

Module DecimalField.

(** [DecimalField(primary_key=False, unique=False, null=True, default=None)] *)
Definition __init__ (primary_key' unique' null' : bool) (default' : value)
  : result Field :=
  let self := FieldBase.__init__ DecimalFieldC primary_key' unique' null' in
  if primary_key' || unique'
  then raise (ValueError "For Decimal values primary_key or unique cannot be True")
  else ret (set_default self default').

Definition to_sql (self : Field) : string :=
  let sql := "DECIMAL" in
  let sql := sql ++ (if negb (null self) then " NOT NULL" else "") in
  let sql := sql ++ (if negb (truthy (default self))
                     then " DEFAULT " ++ str (default self) else " DEFAULT NULL") in
  sql.

End DecimalField.

Module FloatField.

(** [FloatField(primary_key=False, unique=False, null=True, default=None)] *)
Definition __init__ (primary_key' unique' null' : bool) (default' : value)
  : result Field :=
  let self := FieldBase.__init__ FloatFieldC primary_key' unique' null' in
  if primary_key' || unique'
  then raise (ValueError "For Decimal or Float values primary_key or unique cannot be True")
  else ret (set_default self default').

Definition to_sql (self : Field) : string :=
  let sql := "NUMERIC" in
  let sql := sql ++ (if negb (null self) then " NOT NULL" else "") in
  let sql := sql ++ (if negb (truthy (default self))
                     then " DEFAULT " ++ str (default self) else " DEFAULT NULL") in
  sql.

End FloatField.

Module DateTimeField.

(** [DateTimeField(primary_key=False, unique=False, null=True)] *)
Definition __init__ (primary_key' unique' null' : bool) : result Field :=
  let self := FieldBase.__init__ DateTimeFieldC primary_key' unique' null' in
  if primary_key' || unique'
  then raise (ValueError "For DateTimeField primary key or unique cannot be True")
  else ret self.

Definition to_sql (self : Field) : string :=
  let sql := "TEXT" in
  let sql := sql ++ (if negb (null self) then " NOT NULL" else "") in
  sql.

End DateTimeField.

Module BooleanField.

(** [BooleanField(primary_key=False, unique=False, null=True, default=0)] *)
Definition __init__ (primary_key' unique' null' : bool) (default' : value)
  : result Field :=
  let self := FieldBase.__init__ BooleanFieldC primary_key' unique' null' in
  if primary_key' || unique'
  then raise (ValueError "For BooleanField primary key or unique cannot be True")
  else ret (set_default self default').

Definition to_sql (self : Field) : string :=
  "INTEGER DEFAULT " ++ str (default self).

End BooleanField.

Module ImageField.

(** [ImageField(primary_key=False, unique=False, null=True, file_path=None)];
    [file_path] is not stored. *)
Definition __init__ (primary_key' unique' null' : bool) (file_path : value)
  : result Field :=
  let self := FieldBase.__init__ ImageFieldC primary_key' unique' null' in
  if primary_key' || unique'
  then raise (ValueError "For ImageField primary key or unique cannot be True")
  else ret self.

Definition to_sql (self : Field) : string := "TEXT".

End ImageField.

Module FileField.

(** [FileField(primary_key=False, unique=False, null=True)] *)
Definition __init__ (primary_key' unique' null' : bool) : result Field :=
  let self := FieldBase.__init__ FileFieldC primary_key' unique' null' in
  if primary_key' || unique'
  then raise (ValueError "For FileField primary key or unique cannot be True")
  else ret self.

Definition to_sql (self : Field) : string := "TEXT".

End FileField.

(** [field_obj.to_sql()]: the method of the object's class. *)
Definition to_sql (self : Field) : result string :=
  match cls self with
  | CharFieldC => CharField.to_sql self
  | TextFieldC => ret (TextField.to_sql self)
  | AutoFieldC => ret (AutoField.to_sql self)
  | IntegerFieldC => ret (IntegerField.to_sql self)
  | DecimalFieldC => ret (DecimalField.to_sql self)
  | FloatFieldC => ret (FloatField.to_sql self)
  | DateTimeFieldC => ret (DateTimeField.to_sql self)
  | BooleanFieldC => ret (BooleanField.to_sql self)
  | ImageFieldC => ret (ImageField.to_sql self)
  | FileFieldC => ret (FileField.to_sql self)
  end.

(** ** Models *)

(** A class attribute: a [Field] instance or any other value. *)
Inductive attr : Type :=
| AField (f : Field)
| AValue (v : value).

(** [isinstance(field_obj, Field)] *)
Definition isinstance_Field (a : attr) : bool :=
  match a with
  | AField _ => true
  | AValue _ => false
  end.

(** [d[k] = v] on an insertion-ordered dict: a key that is present keeps
    its position and takes the new value, a new key goes last. *)
Fixpoint dict_set {A} (d : list (string * A)) (k : string) (v : A)
  : list (string * A) :=
  match d with
  | [] => [(k, v)]
  | (k', v') :: d' =>
      if (k' =? k)%string then (k, v) :: d' else (k', v') :: dict_set d' k v
  end.

(** A class object as the migration code sees it: its name; the text
    of [cls.__name__.lower()], which Python computes with the Unicode
    case tables; whether it inherits [Model]; the class attribute
    [_table_name] ([PNone], the value inherited from [Model], when the
    class does not set it); the other assignments of the class body in
    source order; and the outcome of calling the class without
    arguments, [cls()], which runs [Model.__init__] unless the class
    defines an [__init__] of its own, and which is taken to be the same
    at each call.  Classes that redefine the class methods of [Model]
    are not covered. *)
Record pyclass : Type := mkPyClass {
  __name__ : string;
  lower_name : string;
  inherits_Model : bool;
  _table_name : value;
  body : list (string * attr);
  instantiate : result unit
}.

(** [cls.__dict__]: the namespace the class body filled, statement by
    statement. *)
Definition __dict__ (c : pyclass) : list (string * attr) :=
  fold_left (fun d kv => dict_set d (fst kv) (snd kv)) (body c) [].

Module Model.

(** [Model.__init__]: every keyword argument becomes an attribute of the
    instance; the result is the instance's attributes. *)
Definition __init__ (kwargs : list (string * value))
  : result (list (string * value)) :=
  ret (fold_left (fun self kv => dict_set self (fst kv) (snd kv)) kwargs []).

Definition _get_table_name (c : pyclass) : string :=
  if truthy (_table_name c) then str (_table_name c)
  else lower_name c.

(** The loop of [get_column_details] over the items of [cls.__dict__]. *)
Fixpoint column_loop (items : list (string * attr)) (sql_args : list string)
  : result (list string) :=
  match items with
  | [] => ret sql_args
  | (field_name, field_obj) :: rest =>
      match field_obj with
      | AField f =>
          sql <- to_sql f ;;
          column_loop rest (sql_args ++ [join " " [field_name; sql]])
      | AValue _ => column_loop rest sql_args
      end
  end.

Definition get_column_details (c : pyclass) : result string :=
  sql_args <- column_loop (__dict__ c) [] ;;
  ret (join "," sql_args).

End Model.

(** A class with an ASCII name that keeps [Model.__init__]: calling it
    without arguments runs [Model.__init__] on no keyword arguments. *)
Definition mkClass (name : string) (inherits : bool) (table_name : value)
           (body' : list (string * attr)) : pyclass :=
  mkPyClass name (ascii_lower name) inherits table_name body'
            (Model.__init__ [] ;;; ret tt).

(** ** Schema editor and migration manager *)

Module DatabaseSchemaEditor.

Definition sql_create_table : string := "CREATE TABLE {table_name} ({definition});".
Definition sql_alter_table : string :=
  "ALTER TABLE {old_table_name} RENAME TO {new_table_name}".
Definition sql_delete_table : string := "DROP TABLE {table_name} CASACDE".
Definition sql_create_column : string :=
  "ALTER TABLE {table_name} ADD {column_name} {definition}".
Definition sql_delete_column : string :=
  "ALTER TABLE {table_name} DROP COLUMN {column_name}".
Definition sql_rename_column : string :=
  "ALTER TABLE {table_name} RENAME COLUMN {old_name} to {new_name}".

Definition generate_table (table_name definition : string) : result string :=
  format sql_create_table
         [("table_name", table_name); ("definition", definition)].

End DatabaseSchemaEditor.

(** An entry of the [models] list: a class, or a value that is not a
    class. *)
Inductive pyobj : Type :=
| OClass (c : pyclass)
| OValue (v : value).

(** The [models] argument: a list, or an object of another type. *)
Inductive models_arg : Type :=
| PyList (l : list pyobj)
| NotList (v : pyobj).

Record manager : Type := mkManager {
  models : list pyobj;
  schema : list string
}.

Module MigrationManager.

Definition not_a_list_msg : string := "models should be a list of Models".
Definition not_a_model_msg : string :=
  "Make sure you inherit Model when creating Models".
Definition not_a_class_msg : string := "issubclass() arg 1 must be a class".

(** [issubclass(model, Model)]; a [TypeError] when [model] is not a
    class. *)
Definition issubclass_Model (model : pyobj) : result bool :=
  match model with
  | OClass c => ret (inherits_Model c)
  | OValue _ => raise (TypeError not_a_class_msg)
  end.

(** The loop of [_create_migrations]; [schema'] is [self.schema] so far. *)
Fixpoint _create_migrations (models' : list pyobj) (schema' : list string)
  : result (list string) :=
  match models' with
  | [] => ret schema'
  | model :: rest =>
      is_model <- issubclass_Model model ;;
      match model with
      | OClass c =>
          if negb is_model then raise (ValueError not_a_model_msg)
          else
            instance <- instantiate c ;;
            obj <- Model.get_column_details c ;;
            instance <- instantiate c ;;
            let table_name := Model._get_table_name c in
            instance <- instantiate c ;;
            definition <- Model.get_column_details c ;;
            table_query <- DatabaseSchemaEditor.generate_table table_name definition ;;
            _create_migrations rest (schema' ++ [table_query])
      | OValue _ => raise (TypeError not_a_class_msg)
      end
  end.

Definition __init__ (models' : models_arg) : result manager :=
  match models' with
  | NotList _ => raise (ValueError not_a_list_msg)
  | PyList l =>
      schema' <- _create_migrations l [] ;;
      ret (mkManager l schema')
  end.

(** [SingletonMigrationManager.__call__]: [_instance] is the class-level
    slot, threaded as state.  An exception of [__init__] leaves the slot
    empty. *)
Definition __call__ (_instance : option manager) (models' : models_arg)
  : result manager * option manager :=
  match _instance with
  | None =>
      match __init__ models' with
      | inl e => (inl e, None)
      | inr instance => (inr instance, Some instance)
      end
  | Some instance => (inr instance, Some instance)
  end.

End MigrationManager.

(** The classes of [example.py]. *)
Definition name_field : result Field := CharField.__init__ (PInt 20) true false false PNone.
Definition food_field : result Field := CharField.__init__ (PInt 150) false false true PNone.

Definition User : result pyclass :=
  name <- name_field ;;
  fav_food <- food_field ;;
  ret (mkClass "User" true (PStr "user_table")
               [("name", AField name); ("fav_food", AField fav_food)]).

Definition Test : result pyclass :=
  test_name <- name_field ;;
  test_food <- food_field ;;
  ret (mkClass "Test" true (PStr "test_table")
               [("test_name", AField test_name); ("test_food", AField test_food)]).

(** ** The sqlite3 connection and the connector *)

(** What happens on a connection, in order. *)
Inductive event : Type :=
| Execute (query : string)
| ExecuteFailed (query : string)
| Commit
| Rollback
| Close.

(** A [sqlite3.Connection]: the statements executed since the last
    commit, the committed ones, and the trace of what was done on it. *)
Record connection : Type := mkConnection {
  database : string;
  closed : bool;
  pending : list string;
  committed : list string;
  trace : list event
}.

Definition closed_msg : string := "Cannot operate on a closed database.".

Section Sqlite3.

(** The store's side.  [connect_error database] is the error text of a
    [sqlite3.connect] that fails.  [execute_error statements query] is
    the error text of the store when it refuses [query] on a connection
    where [statements] are in effect. *)
Variable connect_error : string -> option string.
Variable execute_error : list string -> string -> option string.

Definition sqlite3_connect (database' : string) : result connection :=
  match connect_error database' with
  | Some msg => raise (OperationalError msg)
  | None => ret (mkConnection database' false [] [] [])
  end.

(** [connection.cursor()] *)
Definition cursor (c : connection) : result unit :=
  if closed c then raise (ProgrammingError closed_msg) else ret tt.

(** [cursor.execute(query)] *)
Definition execute (c : connection) (query : string) : result unit * connection :=
  if closed c then (raise (ProgrammingError closed_msg), c)
  else
    match execute_error (committed c ++ pending c) query with
    | Some msg =>
        (raise (OperationalError msg),
         mkConnection (database c) (closed c) (pending c) (committed c)
                      (trace c ++ [ExecuteFailed query]))
    | None =>
        (ret tt,
         mkConnection (database c) (closed c) (pending c ++ [query]) (committed c)
                      (trace c ++ [Execute query]))
    end.

(** [connection.commit()] *)
Definition commit (c : connection) : result unit * connection :=
  if closed c then (raise (ProgrammingError closed_msg), c)
  else
    (ret tt,
     mkConnection (database c) (closed c) [] (committed c ++ pending c)
                  (trace c ++ [Commit])).

(** [connection.close()]: what was not committed is lost. *)
Definition connection_close (c : connection) : connection :=
  mkConnection (database c) true [] (committed c) (trace c ++ [Close]).

(** A [DataBaseConnector] instance; [_connection] is the index of its
    connection among the connections of the process. *)
Record connector : Type := mkConnector {
  _database_name : string;
  _connection : option nat
}.

(** The process: the [_instance] slot of [SingletonDBManagerMeta] and
    every connection [sqlite3.connect] has opened, oldest first. *)
Record process : Type := mkProcess {
  _instance : option connector;
  connections : list connection
}.

Definition live (p : process) : list connection :=
  filter (fun c => negb (closed c)) (connections p).

(** The loop of [exec_create_query]: an exception leaves it at once and
    is raised again as it is. *)
Fixpoint exec_loop (c : connection) (schema' : list string)
  : result unit * connection :=
  match schema' with
  | [] => (ret tt, c)
  | query :: rest =>
      match execute c query with
      | (inl e, c') => (inl e, c')
      | (inr _, c') =>
          match commit c' with
          | (inl e, c'') => (inl e, c'')
          | (inr _, c'') => exec_loop c'' rest
          end
      end
  end.

(** [DataBaseConnector.exec_create_query] on the connector's connection. *)
Definition exec_create_query (c : connection) (schema' : list string)
  : result unit * connection :=
  match cursor c with
  | inl e => (inl e, c)
  | inr _ => exec_loop c schema'
  end.

(** [DataBaseConnector.connect] *)
Definition connect (p : process) (self : connector)
  : result connector * process :=
  match _connection self with
  | None =>
      match sqlite3_connect (_database_name self) with
      | inl e => (raise (Exception (exn_str e)), p)
      | inr c =>
          (ret (mkConnector (_database_name self) (Some (length (connections p)))),
           mkProcess (_instance p) (connections p ++ [c]))
      end
  | Some _ => (ret self, p)
  end.

(** [DataBaseConnector.__init__] *)
Definition connector_init (p : process) (database_name : string)
  : result connector * process :=
  connect p (mkConnector database_name None).

(** [SingletonDBManagerMeta.__call__], that is [DataBaseConnector(database_name)]. *)
Definition DataBaseConnector (p : process) (database_name : string)
  : result connector * process :=
  match _instance p with
  | None =>
      match connector_init p database_name with
      | (inl e, p') => (inl e, p')
      | (inr instance, p') =>
          (ret instance, mkProcess (Some instance) (connections p'))
      end
  | Some instance => (ret instance, p)
  end.

(** [l[i] = f(l[i])] *)
Fixpoint update_nth {A} (i : nat) (f : A -> A) (l : list A) : list A :=
  match l, i with
  | [], _ => []
  | a :: l', O => f a :: l'
  | a :: l', S i' => a :: update_nth i' f l'
  end.

(** [DataBaseConnector.close] *)
Definition close (p : process) (self : connector) : result unit * process :=
  match _connection self with
  | None =>
      (raise (AttributeError "'NoneType' object has no attribute 'close'"), p)
  | Some i =>
      (ret tt,
       mkProcess (_instance p) (update_nth i connection_close (connections p)))
  end.

(** [MigrationManager.apply] *)
Definition MigrationManager_apply (self : manager) (c : connection) : result unit * connection :=
  exec_create_query c (schema self).

End Sqlite3.

Definition fresh_process : process := mkProcess None [].

(** ** The CharField of [orm/fields.py]

    [fields.py] holds an earlier copy of the field classes.  Its [Field]
    base class, its length checks and its [to_sql] methods are those of
    [orm.py]; its [CharField] differs in the message of the primary-key
    check, in the unique check, which refuses [null=True] and does not
    set [null], and in running the default check on every field that is
    neither a key nor unique. *)

Module FieldsPy.

Definition primary_key_msg : string :=
  "When using primary_key=True, do not set null=True, unique=True, or provide a default value. Unique constraint is implied by primary key.".

Definition unique_null_msg : string :=
  "On a unique field you can't set null as True".

Definition _primary_key_checks (self : Field) : result unit :=
  if primary_key self
     && (null self || negb (is_none (default self)) || unique self)
  then raise (ValueError primary_key_msg)
  else ret tt.

Definition _unique_constraint_checks (self : Field) : result unit :=
  if null self && unique self
  then raise (ValueError unique_null_msg)
  else if unique self && (null self || truthy (default self))
       then raise (ValueError CharField.unique_default_msg)
       else ret tt.

Definition _default_value_checks (self : Field) : result unit :=
  if negb (primary_key self) && negb (null self) && negb (truthy (default self))
  then raise (ValueError CharField.needs_default_msg)
  else ret tt.

Definition __init__ (max_length' : value) (primary_key' unique' null' : bool)
           (default' : value) : result Field :=
  let self := mkField CharFieldC primary_key' unique' null' max_length' default' in
  CharField._basic_checks self ;;;
  if primary_key self then
    _primary_key_checks self ;;; ret self
  else if unique self then
    _unique_constraint_checks self ;;; ret self
  else
    _default_value_checks self ;;; ret self.

End FieldsPy.

(** * Vocabulary of the statements *)

(** The cases of [tests/test_fields.py]: the constructor's message, or
    the fragment of the field. *)
Definition char_field_case (ml : value) (pk u nl : bool) (d : value)
  : result string :=
  name <- CharField.__init__ ml pk u nl d ;; to_sql name.

(** The specification's reading of the unique rule: every default other
    than [None] makes the constructor of a unique field raise the
    unique/default error. *)
Definition unique_rejects_every_default : Prop :=
  forall (m : Z) (nl : bool) (d : value),
    2 <= m <= 255 -> d <> PNone ->
    CharField.__init__ (PInt m) false true nl d
    = inl (ValueError CharField.unique_default_msg).

(** The fragment the clause-order rule describes, written after the
    rule's words: the SQL type of the domain, then NOT NULL when the
    field is not nullable, PRIMARY KEY when it is a key, UNIQUE when it
    is unique, and a DEFAULT clause when a default is set, quoted for
    the text-like domains. *)
Definition claimed_sql_type (self : Field) : string :=
  match cls self with
  | CharFieldC => "VARCHAR(" ++ str (max_length self) ++ ")"
  | TextFieldC => "TEXT"
  | AutoFieldC => "INTEGER PRIMARY KEY AUTOINCREMENT"
  | IntegerFieldC => "INTEGER"
  | DecimalFieldC => "DECIMAL"
  | FloatFieldC => "NUMERIC"
  | DateTimeFieldC => "TEXT"
  | BooleanFieldC => "INTEGER"
  | ImageFieldC => "TEXT"
  | FileFieldC => "TEXT"
  end.

Definition claimed_text_like (c : field_class) : bool :=
  match c with
  | CharFieldC | TextFieldC | DateTimeFieldC | ImageFieldC | FileFieldC => true
  | _ => false
  end.

Definition claimed_default_clause (self : Field) : string :=
  if is_none (default self) then ""
  else if claimed_text_like (cls self)
       then " DEFAULT '" ++ str (default self) ++ "'"
       else " DEFAULT " ++ str (default self).

Definition claimed_fragment (self : Field) : string :=
  claimed_sql_type self
    ++ (if null self then "" else " NOT NULL")
    ++ (if primary_key self then " PRIMARY KEY" else "")
    ++ (if unique self then " UNIQUE" else "")
    ++ claimed_default_clause self.

(** The two statements the specification gives for
    [MigrationManager([User, Test])]. *)
Definition claimed_schema : list string :=
  [ "CREATE TABLE user_table (name VARCHAR(20) NOT NULL PRIMARY KEY,favfood VARCHAR(150))";
    "CREATE TABLE test_table (testname VARCHAR(20) NOT NULL PRIMARY KEY,testfood VARCHAR(150))" ].

(** The fields among the class attributes, in the order of the list. *)
Fixpoint declared_fields (items : list (string * attr)) : list (string * Field) :=
  match items with
  | [] => []
  | (field_name, AField f) :: rest => (field_name, f) :: declared_fields rest
  | (_, AValue _) :: rest => declared_fields rest
  end.

(** [col] is the column text of the field [nf]: its name as declared, a
    space, and the field's fragment. *)
Definition is_column (nf : string * Field) (col : string) : Prop :=
  exists sql, to_sql (snd nf) = inr sql /\ col = fst nf ++ " " ++ sql.

(** The statement [_create_migrations] builds for one model class. *)
Definition create_table_statement (c : pyclass) : result string :=
  definition <- Model.get_column_details c ;;
  DatabaseSchemaEditor.generate_table (Model._get_table_name c) definition.





(** A class with a non-field attribute between two fields. *)
Definition Article : pyclass :=
  mkClass "Article" true PNone
          [ ("title", AField (mkField CharFieldC true false false (PInt 50) PNone));
            ("page_size", AValue (PInt 10));
            ("created", AField (mkField DateTimeFieldC false false true PNone PNone)) ].

(** The store accepts the statements of [schema'] one after the other on
    a connection where [statements] are in effect. *)
Fixpoint accepts (execute_error : list string -> string -> option string)
         (statements schema' : list string) : bool :=
  match schema' with
  | [] => true
  | query :: rest =>
      match execute_error statements query with
      | None => accepts execute_error (statements ++ [query]) rest
      | Some _ => false
      end
  end.

(** The events of statements that were executed and committed one by
    one. *)
Definition statement_events (schema' : list string) : list event :=
  flat_map (fun query => [Execute query; Commit]) schema'.

(** The statements handed to [cursor.execute], accepted or not. *)
Fixpoint attempted (events : list event) : list string :=
  match events with
  | [] => []
  | Execute query :: rest | ExecuteFailed query :: rest => query :: attempted rest
  | _ :: rest => attempted rest
  end.

(** A store that refuses every statement with the same text, as a
    database file opened without write permission does. *)
Definition readonly_store : list string -> string -> option string :=
  fun _ _ => Some "attempt to write a readonly database".

(** The specification's reading of a failed batch: its exception tells
    which statement failed.  [ExecuteFailed q] is the last event of the
    connection after a failure on [q]. *)
Definition error_names_statement
           (execute_error : list string -> string -> option string) : Prop :=
  forall c schema1 schema2 e c1 c2 q1 q2,
    exec_create_query execute_error c schema1 = (inl e, c1) ->
    exec_create_query execute_error c schema2 = (inl e, c2) ->
    last (trace c1) Commit = ExecuteFailed q1 ->
    last (trace c2) Commit = ExecuteFailed q2 ->
    q1 = q2.

(** A store that refuses to create a table that exists. *)
Definition no_duplicate_store : list string -> string -> option string :=
  fun statements query =>
    if existsb (String.eqb query) statements
    then Some "table already exists" else None.

Definition two_tables : list string :=
  ["CREATE TABLE a (x TEXT);"; "CREATE TABLE b (y TEXT);"].

(** What client code does with the connector class: a construction
    request for a target, or [close()] on the connector it was given. *)
Inductive request : Type :=
| Construct (database_name : string)
| CloseConnector.

Definition serve (connect_error : string -> option string)
           (p : process) (r : request) : process :=
  match r with
  | Construct database_name =>
      snd (DataBaseConnector connect_error p database_name)
  | CloseConnector =>
      match _instance p with
      | Some instance => snd (close p instance)
      | None => p
      end
  end.

(** The requests of a list, one after the other; a request that raises
    leaves the process as it was. *)
Definition requests (connect_error : string -> option string)
           (p : process) (rs : list request) : process :=
  fold_left (serve connect_error) rs p.

(** The specification's reading of the singleton: a request that names
    another target does not get the connection opened for the first
    one. *)
Definition other_target_not_redirected
           (connect_error : string -> option string) : Prop :=
  forall p t1 t2 c1 p1 c2 p2,
    t1 <> t2 ->
    DataBaseConnector connect_error p t1 = (inr c1, p1) ->
    DataBaseConnector connect_error p1 t2 = (inr c2, p2) ->
    _connection c2 <> _connection c1.

Definition singleton_invariant (p : process) : Prop :=
  match _instance p with
  | None => connections p = []
  | Some instance => length (connections p) = 1%nat
  end.

(** A store on which one path cannot be opened. *)
Definition one_missing_path : string -> option string :=
  fun database_name =>
    if (database_name =? "/no/such/dir/app.db")%string
    then Some "unable to open database file" else None.

(** The manager [MigrationManager([Article])] builds. *)
Definition article_manager : manager :=
  mkManager [OClass Article]
            ["CREATE TABLE article (title VARCHAR(50) NOT NULL PRIMARY KEY,created TEXT);"].

(** The outcome [r] of a constructor that refuses keys and unique
    fields: an error exactly when one of the two flags is set, and
    otherwise the field of class [c] with [null] and [default] as
    passed. *)
Definition refuses_key_and_unique (r : result Field) (c : field_class)
           (pk u nl : bool) (d : value) : Prop :=
  match r with
  | inr f => pk = false /\ u = false /\ f = mkField c false false nl PNone d
  | inl e => (pk = true \/ u = true) /\ exists msg, e = ValueError msg
  end.


(** A subclass of [Model] whose own [__init__] takes a required
    argument: calling it without arguments raises. *)
Definition Strict : pyclass :=
  mkPyClass "Strict" "strict" true PNone []
            (raise (TypeError "Strict.__init__() missing 1 required positional argument: 'owner'")).




(** * Properties *)

(** ** Strings *)

Lemma append_assoc (s t u : string) : (s ++ t) ++ u = s ++ (t ++ u).
Proof.
  induction s as [|c s IH]; simpl; [reflexivity|].
  now rewrite IH.
Qed.

Lemma append_empty_r (s : string) : s ++ "" = s.
Proof.
  induction s as [|c s IH]; simpl; [reflexivity|].
  now rewrite IH.
Qed.

(** Decimal rendering agrees with Python's on the usual cases. *)
Example str_int_examples :
  str_int 0 = "0" /\ str_int 50 = "50" /\ str_int 255 = "255" /\ str_int (-7) = "-7".
Proof. repeat split. Qed.

(** ** CharField: the length checks *)

Lemma basic_checks_valid (self : Field) (n : Z) :
  max_length self = PInt n -> 2 <= n <= 255 ->
  CharField._basic_checks self = inr tt.
Proof.
  intros Hm Hn.
  unfold CharField._basic_checks, run_checks; simpl.
  unfold CharField._check_max_length_and_type, CharField._check_max_length_limit.
  rewrite Hm; simpl.
  destruct (Z.leb_spec n 1) as [H|H]; [lia|]. simpl.
  unfold gt_int; simpl.
  destruct (Z.gtb_spec n 255) as [H'|H']; [lia|]. reflexivity.
Qed.

Lemma basic_checks_not_int (self : Field) :
  isinstance_int (max_length self) = false ->
  CharField._basic_checks self = inl (ValueError CharField.max_length_msg).
Proof.
  intros H.
  unfold CharField._basic_checks, run_checks; simpl.
  unfold CharField._check_max_length_and_type.
  now rewrite H.
Qed.

Lemma basic_checks_small (self : Field) (z : Z) :
  as_int (max_length self) = Some z -> z <= 1 ->
  CharField._basic_checks self = inl (ValueError CharField.max_length_msg).
Proof.
  intros Hz Hle.
  unfold CharField._basic_checks, run_checks; simpl.
  unfold CharField._check_max_length_and_type, le_int.
  rewrite Hz.
  destruct (max_length self) as [|b|n|s|t x]; simpl in *; try discriminate;
    injection Hz as <-.
  - destruct b; reflexivity.
  - destruct (Z.leb_spec n 1); [reflexivity|lia].
Qed.

Lemma basic_checks_long (self : Field) (z : Z) :
  max_length self = PInt z -> 255 < z ->
  CharField._basic_checks self = inl (ValueError CharField.max_length_limit_msg).
Proof.
  intros Hz Hgt.
  unfold CharField._basic_checks, run_checks; simpl.
  unfold CharField._check_max_length_and_type, CharField._check_max_length_limit.
  rewrite Hz; simpl.
  destruct (Z.leb_spec z 1) as [H|H]; [lia|]. simpl.
  unfold gt_int; simpl.
  destruct (Z.gtb_spec z 255) as [H'|H']; [reflexivity|lia].
Qed.

(** The constructor returns the exception of [_basic_checks] whatever
    the other arguments are. *)
Lemma init_basic_checks_first (ml : value) (pk u nl : bool) (d : value) (e : exn) :
  CharField._basic_checks (mkField CharFieldC pk u nl ml d) = inl e ->
  CharField.__init__ ml pk u nl d = inl e.
Proof.
  intros H. unfold CharField.__init__. cbv zeta. now rewrite H.
Qed.

(** ** CharField: compilation *)

(** The sort of [remaning_definition] puts the four methods in the order
    of [method_order]. *)
Lemma remaning_definition_order (self : Field) :
  FieldBase.remaning_definition self =
  FieldBase.check_null self ++ FieldBase.check_primary_key self
    ++ FieldBase.check_unique self ++ FieldBase.check_default self.
Proof.
  unfold FieldBase.remaning_definition. cbn.
  now rewrite !append_assoc.
Qed.

Lemma charfield_to_sql_key (self : Field) :
  cls self = CharFieldC -> primary_key self = true ->
  to_sql self = inr ("VARCHAR(" ++ str (max_length self) ++ ") NOT NULL PRIMARY KEY").
Proof.
  intros Hc Hp. unfold to_sql, CharField.to_sql. rewrite Hc, Hp. cbn.
  now rewrite !append_assoc.
Qed.

Lemma charfield_to_sql_plain (self : Field) :
  cls self = CharFieldC -> primary_key self = false ->
  to_sql self =
  inr ("VARCHAR(" ++ str (max_length self) ++ ")"
         ++ FieldBase.check_null self ++ FieldBase.check_primary_key self
         ++ FieldBase.check_unique self ++ FieldBase.check_default self).
Proof.
  intros Hc Hp. unfold to_sql, CharField.to_sql. rewrite Hc, Hp.
  rewrite remaning_definition_order. cbn.
  now rewrite !append_assoc.
Qed.

(** C2.  For every integer [n] with [2 <= n <= 255], the constructor
    [CharField(max_length=n, primary_key=True)] succeeds and the field
    compiles to [VARCHAR(n) NOT NULL PRIMARY KEY], [n] in decimal. *)
Theorem charfield_primary_key_compiles (n : Z) :
  2 <= n <= 255 ->
  exists f,
    CharField.__init__ (PInt n) true false false PNone = inr f
    /\ to_sql f = inr ("VARCHAR(" ++ str_int n ++ ") NOT NULL PRIMARY KEY").
Proof.
  intros Hn.
  exists (mkField CharFieldC true false false (PInt n) PNone). split.
  - unfold CharField.__init__. cbv zeta.
    rewrite (basic_checks_valid (mkField CharFieldC true false false (PInt n) PNone) n eq_refl Hn).
    reflexivity.
  - now rewrite charfield_to_sql_key.
Qed.

Lemma charfield_primary_key_compiles_50 :
  2 <= 50 <= 255 /\
  exists f,
    CharField.__init__ (PInt 50) true false false PNone = inr f
    /\ to_sql f = inr "VARCHAR(50) NOT NULL PRIMARY KEY".
Proof.
  split; [lia|]. apply (charfield_primary_key_compiles 50). lia.
Defined.

Example test_char_field :
  char_field_case (PInt 10) true false true PNone
  = inl (ValueError CharField.primary_key_msg)
  /\ char_field_case (PInt 50) true true false PNone
     = inl (ValueError CharField.primary_key_msg)
  /\ char_field_case (PInt 50) true true false (PStr "some text")
     = inl (ValueError CharField.primary_key_msg)
  /\ char_field_case (PInt 50) false false true PNone = inr "VARCHAR(50)"
  /\ char_field_case (PInt 50) false false false (PStr "default_value_here")
     = inr "VARCHAR(50) NOT NULL DEFAULT 'default_value_here'"
  /\ char_field_case (PInt 50) false true false (PStr "default_value_here")
     = inl (ValueError CharField.unique_default_msg)
  /\ char_field_case (PInt 50) false true false PNone = inr "VARCHAR(50) UNIQUE"
  /\ char_field_case (PInt 50) false true true (PStr "None")
     = inl (ValueError CharField.unique_default_msg)
  /\ char_field_case (PInt 50) false false false PNone
     = inl (ValueError CharField.needs_default_msg).
Proof. repeat split. Qed.

(** ** CharField: unique fields and defaults *)

(** C3, counterexample.  [CharField(max_length=50, unique=True,
    default="")] has a default that is not [None] and is constructed
    all the same: the test of [_unique_constraint_checks] is the truth
    value of the default. *)
Lemma unique_empty_default_constructs :
  CharField.__init__ (PInt 50) false true false (PStr "")
  = inr (mkField CharFieldC false true true (PInt 50) (PStr ""))
  /\ ~ unique_rejects_every_default.
Proof.
  split; [reflexivity|].
  intros H.
  specialize (H 50 false (PStr "")).
  assert (Hn : 2 <= 50 <= 255) by lia.
  assert (Hd : PStr "" <> PNone) by discriminate.
  specialize (H Hn Hd). discriminate H.
Qed.

(** C3, as the code has it.  For a valid [max_length=m] and
    [unique=True] (no primary key): a default whose truth value is true
    makes the constructor raise the unique/default error; with no
    default, or one whose truth value is false, it succeeds, the field's
    [null] is [True] whatever was passed, and the field compiles to
    [VARCHAR(m) UNIQUE]. *)
Theorem charfield_unique_default (m : Z) (nl : bool) (d : value) :
  2 <= m <= 255 ->
  if truthy d
  then CharField.__init__ (PInt m) false true nl d
       = inl (ValueError CharField.unique_default_msg)
  else exists f,
      CharField.__init__ (PInt m) false true nl d = inr f
      /\ null f = true
      /\ to_sql f = inr ("VARCHAR(" ++ str_int m ++ ") UNIQUE").
Proof.
  intros Hm.
  pose proof (basic_checks_valid (mkField CharFieldC false true nl (PInt m) d)
                                 m eq_refl Hm) as Hb.
  destruct (truthy d) eqn:Ht.
  - unfold CharField.__init__. cbv zeta. rewrite Hb. simpl.
    unfold CharField._unique_constraint_checks. simpl. now rewrite Ht.
  - exists (mkField CharFieldC false true true (PInt m) d). repeat split.
    + unfold CharField.__init__. cbv zeta. rewrite Hb. simpl.
      unfold CharField._unique_constraint_checks. simpl. now rewrite Ht.
    + rewrite charfield_to_sql_plain by reflexivity.
      unfold FieldBase.check_null, FieldBase.check_primary_key,
        FieldBase.check_unique, FieldBase.check_default. simpl.
      rewrite Ht. reflexivity.
Qed.

Lemma charfield_unique_default_50 :
  2 <= 50 <= 255 /\
  exists f,
    CharField.__init__ (PInt 50) false true false PNone = inr f
    /\ null f = true
    /\ to_sql f = inr "VARCHAR(50) UNIQUE".
Proof.
  split; [lia|]. apply (charfield_unique_default 50 false PNone). lia.
Defined.

(** ** CharField: the messages of the length checks *)

(** C5.  Whatever the other arguments: a [max_length] that is [None] or
    of a type other than [int], or an integer not above 1, makes the
    constructor raise the "can't be None or less than 2 characters"
    error; an integer above 255 makes it raise the "can not be longer
    than 255 characters" error. *)
Theorem charfield_max_length_errors (ml : value) (pk u nl : bool) (d : value) :
  (isinstance_int ml = false \/ (exists z, as_int ml = Some z /\ z <= 1) ->
   CharField.__init__ ml pk u nl d
   = inl (ValueError
            "max_length can't be None or less than 2 characters and it should be an integer!"))
  /\ (forall z, ml = PInt z -> 255 < z ->
      CharField.__init__ ml pk u nl d
      = inl (ValueError
               "CharField can not be longer than 255 characters. Use TextField!")).
Proof.
  split.
  - intros [H|[z [Hz Hle]]]; apply init_basic_checks_first.
    + now apply basic_checks_not_int.
    + now apply basic_checks_small with z.
  - intros z Hz Hgt. apply init_basic_checks_first.
    now apply basic_checks_long with z.
Qed.

Lemma charfield_max_length_errors_tests :
  CharField.__init__ PNone false false false PNone
  = inl (ValueError CharField.max_length_msg)
  /\ CharField.__init__ (PStr "None") false false false PNone
     = inl (ValueError CharField.max_length_msg)
  /\ CharField.__init__ (PInt 0) false false false PNone
     = inl (ValueError CharField.max_length_msg)
  /\ CharField.__init__ (PInt 566) false false false PNone
     = inl (ValueError CharField.max_length_limit_msg).
Proof.
  split; [|split; [|split]].
  - apply (proj1 (charfield_max_length_errors PNone false false false PNone)).
    left. reflexivity.
  - apply (proj1 (charfield_max_length_errors (PStr "None") false false false PNone)).
    left. reflexivity.
  - apply (proj1 (charfield_max_length_errors (PInt 0) false false false PNone)).
    right. exists 0. split; [reflexivity|lia].
  - apply (proj2 (charfield_max_length_errors (PInt 566) false false false PNone) 566);
      [reflexivity|lia].
Defined.

(** ** CharField: the order of the checks *)

(** C10.  When [max_length] is invalid (not an [int], or an integer
    below 2 or above 255) the constructor raises one of the two
    [max_length] errors whatever [primary_key], [unique], [null] and
    [default] are, and so never the primary-key, unique or default-value
    error. *)
Theorem charfield_max_length_checked_first
        (ml : value) (pk u nl : bool) (d : value) :
  isinstance_int ml = false
  \/ (exists z, as_int ml = Some z /\ (z <= 1 \/ 255 < z)) ->
  exists msg,
    CharField.__init__ ml pk u nl d = inl (ValueError msg)
    /\ (msg = CharField.max_length_msg \/ msg = CharField.max_length_limit_msg)
    /\ msg <> CharField.primary_key_msg
    /\ msg <> CharField.unique_default_msg
    /\ msg <> CharField.needs_default_msg.
Proof.
  intros H.
  assert (Hmsg : exists msg,
             CharField._basic_checks (mkField CharFieldC pk u nl ml d)
             = inl (ValueError msg)
             /\ (msg = CharField.max_length_msg
                 \/ msg = CharField.max_length_limit_msg)).
  { destruct H as [H|[z [Hz [Hle|Hgt]]]].
    - exists CharField.max_length_msg. split; [|now left].
      now apply basic_checks_not_int.
    - exists CharField.max_length_msg. split; [|now left].
      now apply basic_checks_small with z.
    - destruct ml as [|b|n|s|t x]; simpl in Hz; try discriminate.
      + destruct b; injection Hz as <-; lia.
      + injection Hz as <-.
        exists CharField.max_length_limit_msg. split; [|now right].
        now apply basic_checks_long with n. }
  destruct Hmsg as [msg [Hb Hcase]].
  exists msg. split; [now apply init_basic_checks_first|].
  split; [exact Hcase|].
  destruct Hcase as [-> | ->]; repeat split; discriminate.
Qed.

Lemma charfield_max_length_checked_first_example :
  exists msg,
    CharField.__init__ PNone true false true PNone = inl (ValueError msg)
    /\ (msg = CharField.max_length_msg \/ msg = CharField.max_length_limit_msg)
    /\ msg <> CharField.primary_key_msg
    /\ msg <> CharField.unique_default_msg
    /\ msg <> CharField.needs_default_msg.
Proof.
  apply (charfield_max_length_checked_first PNone true false true PNone).
  left. reflexivity.
Defined.

(** ** The clause order of non-key fields *)

(** [CharField] follows the rule, the default counting as set when its
    truth value is true. *)
Lemma charfield_follows_clause_order (self : Field) :
  cls self = CharFieldC -> primary_key self = false ->
  truthy (default self) = negb (is_none (default self)) ->
  to_sql self = inr (claimed_fragment self).
Proof.
  intros Hc Hp Ht.
  rewrite charfield_to_sql_plain by assumption.
  unfold claimed_fragment, claimed_sql_type, claimed_default_clause,
    FieldBase.check_null, FieldBase.check_primary_key,
    FieldBase.check_unique, FieldBase.check_default.
  rewrite Hc, Hp, Ht. simpl.
  destruct (null self), (unique self), (is_none (default self)); simpl;
    now rewrite ?append_assoc.
Qed.

(** C4, what the code does.  [TextField()] has no default and compiles
    to a fragment with a DEFAULT clause; [TextField(default="hello")]
    has one and compiles to a fragment without it;
    [IntegerField(unique=True, null=False)] puts UNIQUE before NOT NULL
    and adds a DEFAULT clause for a default that is not set.  None of
    the three is the fragment of the rule. *)
Theorem to_sql_departs_from_clause_order :
  (exists f,
      TextField.__init__ false false true PNone = inr f
      /\ primary_key f = false /\ default f = PNone
      /\ to_sql f = inr "TEXT DEFAULT 'None'"
      /\ claimed_fragment f = "TEXT")
  /\ (exists f,
         TextField.__init__ false false true (PStr "hello") = inr f
         /\ primary_key f = false
         /\ to_sql f = inr "TEXT"
         /\ claimed_fragment f = "TEXT DEFAULT 'hello'")
  /\ (exists f,
         IntegerField.__init__ false true false PNone = inr f
         /\ primary_key f = false
         /\ to_sql f = inr "INTEGER UNIQUE NOT NULL DEFAULT None"
         /\ claimed_fragment f = "INTEGER NOT NULL UNIQUE").
Proof.
  split; [|split]; eexists; (split; [reflexivity|]); repeat split.
Qed.

(** ** Table statements *)

Lemma generate_table_eq (table_name definition : string) :
  DatabaseSchemaEditor.generate_table table_name definition
  = inr ("CREATE TABLE " ++ table_name ++ " (" ++ definition ++ ");").
Proof.
  unfold DatabaseSchemaEditor.generate_table, format. cbn.
  reflexivity.
Qed.

(** C1, counterexample.  The schema built for [[User, Test]] is not the
    claimed one: the column of [fav_food] is named [fav_food], and each
    statement ends with the semicolon of the template. *)
Lemma example_schema_is_not_claimed :
  ~ (exists u t m,
        User = inr u /\ Test = inr t
        /\ fst (MigrationManager.__call__ None (PyList [OClass u; OClass t])) = inr m
        /\ schema m = claimed_schema).
Proof.
  intros [u [t [m [Hu [Ht [Hm Hs]]]]]].
  injection Hu as <-. injection Ht as <-.
  vm_compute in Hm. injection Hm as <-.
  vm_compute in Hs. discriminate Hs.
Qed.

(** C1, as the code has it.  Constructing [MigrationManager([User, Test])]
    in a process with no manager yet gives a schema of exactly two
    statements in registration order,
    [CREATE TABLE user_table (name VARCHAR(20) NOT NULL PRIMARY KEY,fav_food VARCHAR(150));]
    and
    [CREATE TABLE test_table (test_name VARCHAR(20) NOT NULL PRIMARY KEY,test_food VARCHAR(150));]
    each the template [CREATE TABLE {table_name} ({definition});] filled
    with the table name and the comma-joined columns. *)
Theorem example_schema :
  exists u t m,
    User = inr u /\ Test = inr t
    /\ MigrationManager.__call__ None (PyList [OClass u; OClass t]) = (inr m, Some m)
    /\ schema m =
       [ "CREATE TABLE user_table (name VARCHAR(20) NOT NULL PRIMARY KEY,fav_food VARCHAR(150));";
         "CREATE TABLE test_table (test_name VARCHAR(20) NOT NULL PRIMARY KEY,test_food VARCHAR(150));" ]
    /\ Model.get_column_details u
       = inr "name VARCHAR(20) NOT NULL PRIMARY KEY,fav_food VARCHAR(150)"
    /\ Model.get_column_details t
       = inr "test_name VARCHAR(20) NOT NULL PRIMARY KEY,test_food VARCHAR(150)"
    /\ DatabaseSchemaEditor.generate_table
         "user_table" "name VARCHAR(20) NOT NULL PRIMARY KEY,fav_food VARCHAR(150)"
       = inr (nth 0 (schema m) "")
    /\ DatabaseSchemaEditor.generate_table
         "test_table" "test_name VARCHAR(20) NOT NULL PRIMARY KEY,test_food VARCHAR(150)"
       = inr (nth 1 (schema m) "").
Proof.
  do 3 eexists.
  split; [reflexivity|]. split; [reflexivity|].
  split; [vm_compute; reflexivity|].
  repeat split.
Qed.

(** ** Columns of a model *)

Lemma to_sql_total (f : Field) : exists sql, to_sql f = inr sql.
Proof.
  unfold to_sql. destruct (cls f) eqn:Hc; try (eexists; reflexivity).
  destruct (primary_key f) eqn:Hp.
  - exists ("VARCHAR(" ++ str (max_length f) ++ ") NOT NULL PRIMARY KEY").
    rewrite <- (charfield_to_sql_key f Hc Hp). unfold to_sql. now rewrite Hc.
  - eexists.
    rewrite <- (charfield_to_sql_plain f Hc Hp). unfold to_sql. now rewrite Hc.
Qed.

Lemma column_loop_spec (items : list (string * attr)) :
  forall sql_args,
  exists cols,
    Model.column_loop items sql_args = inr (sql_args ++ cols)%list
    /\ Forall2 is_column (declared_fields items) cols.
Proof.
  induction items as [|[field_name field_obj] rest IH]; intros sql_args.
  - exists []. simpl. rewrite app_nil_r. split; [reflexivity|constructor].
  - destruct field_obj as [f|v]; simpl.
    + destruct (to_sql_total f) as [sql Hsql]. rewrite Hsql. simpl.
      destruct (IH (sql_args ++ [(field_name ++ " " ++ sql)%string])%list) as [cols [Hl Hc]].
      exists ((field_name ++ " " ++ sql) :: cols). split.
      * rewrite <- app_assoc in Hl. exact Hl.
      * constructor; [|exact Hc]. exists sql. now split.
    + apply IH.
Qed.

Lemma dict_set_fresh {A} (d : list (string * A)) (k : string) (v : A) :
  ~ In k (map fst d) -> dict_set d k v = (d ++ [(k, v)])%list.
Proof.
  induction d as [|[k' v'] d IH]; simpl; intros Hn; [reflexivity|].
  destruct (String.eqb_spec k' k) as [->|Hne].
  - exfalso. apply Hn. now left.
  - rewrite IH; [reflexivity|]. intros Hin. apply Hn. now right.
Qed.

Lemma fold_dict_set_nodup {A} (l d : list (string * A)) :
  NoDup (map fst (d ++ l)%list) ->
  fold_left (fun d kv => dict_set d (fst kv) (snd kv)) l d = (d ++ l)%list.
Proof.
  revert d. induction l as [|[k v] l IH]; intros d Hnd; simpl.
  - now rewrite app_nil_r.
  - rewrite dict_set_fresh.
    + rewrite IH; rewrite <- app_assoc; [reflexivity|exact Hnd].
    + rewrite map_app in Hnd. simpl in Hnd.
      apply NoDup_remove_2 in Hnd. intros Hin. apply Hnd.
      apply in_or_app. now left.
Qed.

(** With distinct attribute names the class namespace lists the
    attributes as the class body declares them. *)
Lemma dict_of_distinct_names (c : pyclass) :
  NoDup (map fst (body c)) -> __dict__ c = body c.
Proof.
  intros Hnd. unfold __dict__. now rewrite fold_dict_set_nodup.
Qed.

Lemma get_column_details_spec (c : pyclass) :
  exists cols,
    Model.get_column_details c = inr (join "," cols)
    /\ Forall2 is_column (declared_fields (__dict__ c)) cols.
Proof.
  unfold Model.get_column_details.
  destruct (column_loop_spec (__dict__ c) []) as [cols [Hl Hc]].
  exists cols. rewrite Hl. simpl. now split.
Qed.

Lemma is_column_functional (fields : list (string * Field)) :
  forall cols1 cols2,
    Forall2 is_column fields cols1 -> Forall2 is_column fields cols2 ->
    cols1 = cols2.
Proof.
  induction fields as [|nf fields IH]; intros cols1 cols2 H1 H2;
    inversion H1; inversion H2; subst; [reflexivity|].
  f_equal; [|now apply IH].
  match goal with
  | Ha : is_column nf ?a, Hb : is_column nf ?b |- ?a = ?b =>
      destruct Ha as [s1 [Hs1 ->]]; destruct Hb as [s2 [Hs2 ->]]
  end.
  rewrite Hs1 in Hs2. now injection Hs2 as <-.
Qed.

Lemma create_table_statement_total (c : pyclass) :
  exists table_query, create_table_statement c = inr table_query.
Proof.
  unfold create_table_statement.
  destruct (get_column_details_spec c) as [cols [Hd _]]. rewrite Hd. simpl.
  rewrite generate_table_eq. eexists. reflexivity.
Qed.

(** ** Construction of the migration manager *)

Lemma create_migrations_step (c : pyclass) (rest : list pyobj)
      (schema' : list string) (table_query : string) :
  inherits_Model c = true ->
  instantiate c = inr tt ->
  create_table_statement c = inr table_query ->
  MigrationManager._create_migrations (OClass c :: rest) schema'
  = MigrationManager._create_migrations rest (schema' ++ [table_query])%list.
Proof.
  intros Hm Hi Hs.
  cbn [MigrationManager._create_migrations MigrationManager.issubclass_Model
         bind ret].
  rewrite Hm, Hi. cbn [negb bind].
  unfold create_table_statement in Hs.
  destruct (Model.get_column_details c) as [e|definition]; cbn [bind] in *;
    [discriminate|].
  now rewrite Hs.
Qed.

Lemma create_migrations_raise (c : pyclass) (rest : list pyobj)
      (schema' : list string) (e : exn) :
  inherits_Model c = true ->
  instantiate c = inl e ->
  MigrationManager._create_migrations (OClass c :: rest) schema' = inl e.
Proof.
  intros Hm Hi.
  cbn [MigrationManager._create_migrations MigrationManager.issubclass_Model
         bind ret].
  rewrite Hm, Hi. reflexivity.
Qed.




Lemma create_migrations_app (l1 l2 : list pyobj) :
  forall schema',
    MigrationManager._create_migrations (l1 ++ l2) schema'
    = bind (MigrationManager._create_migrations l1 schema')
           (fun s => MigrationManager._create_migrations l2 s).
Proof.
  induction l1 as [|o l1 IH]; intros schema'; [reflexivity|].
  destruct o as [c|v]; [|reflexivity].
  destruct (inherits_Model c) eqn:Hm.
  - change ((OClass c :: l1) ++ l2)%list with (OClass c :: (l1 ++ l2))%list.
    destruct (instantiate c) as [e|[]] eqn:Hi.
    + now rewrite !(create_migrations_raise c _ schema' e Hm Hi).
    + destruct (create_table_statement_total c) as [q Hq].
      rewrite !(create_migrations_step c _ schema' q Hm Hi Hq). apply IH.
  - simpl. rewrite Hm. reflexivity.
Qed.




(** ** Determinism and column order *)




(** A name assigned twice in the class body keeps the place of its first
    assignment and the value of its last. *)
Example redeclared_attribute :
  __dict__ (mkClass "Draft" true PNone
                    [ ("title", AValue (PInt 1));
                      ("created", AValue (PInt 2));
                      ("title", AValue (PInt 3)) ])
  = [ ("title", AValue (PInt 3)); ("created", AValue (PInt 2)) ].
Proof. reflexivity. Qed.

Example article_statement :
  create_table_statement Article
  = inr "CREATE TABLE article (title VARCHAR(50) NOT NULL PRIMARY KEY,created TEXT);".
Proof. reflexivity. Qed.

(** ** Batch execution *)

Lemma attempted_statement_events (schema' : list string) (tail : list event) :
  attempted (statement_events schema' ++ tail) = (schema' ++ attempted tail)%list.
Proof.
  induction schema' as [|q rest IH]; simpl; [reflexivity|]. now rewrite IH.
Qed.

Lemma no_rollback_in_statement_events (schema' : list string) :
  ~ In Rollback (statement_events schema').
Proof.
  induction schema' as [|q rest IH]; simpl; [tauto|].
  intros [H|[H|H]]; [discriminate|discriminate|now apply IH].
Qed.

Section BatchExecution.

Variable execute_error : list string -> string -> option string.

Lemma exec_loop_accepted (schema' : list string) :
  forall c,
    closed c = false -> pending c = [] ->
    accepts execute_error (committed c) schema' = true ->
    exec_loop execute_error c schema'
    = (inr tt,
       mkConnection (database c) false [] (committed c ++ schema')
                    (trace c ++ statement_events schema')).
Proof.
  induction schema' as [|q rest IH]; intros c Hc Hp Ha.
  - simpl. rewrite !app_nil_r. destruct c; simpl in *; now subst.
  - simpl in Ha. destruct (execute_error (committed c) q) eqn:Hq; [discriminate|].
    cbn [exec_loop]. unfold execute, commit. rewrite Hc, Hp, app_nil_r, Hq.
    cbn [closed pending committed database trace].
    rewrite IH; cbn [closed pending committed database trace]; try reflexivity.
    + unfold statement_events. simpl. now rewrite <- !app_assoc.
    + exact Ha.
Qed.

Lemma exec_loop_rejected (pre : list string) (q : string) (post : list string)
      (msg : string) :
  forall c,
    closed c = false -> pending c = [] ->
    accepts execute_error (committed c) pre = true ->
    execute_error (committed c ++ pre) q = Some msg ->
    exec_loop execute_error c (pre ++ q :: post)
    = (inl (OperationalError msg),
       mkConnection (database c) false [] (committed c ++ pre)
                    (trace c ++ statement_events pre ++ [ExecuteFailed q])).
Proof.
  induction pre as [|q' rest IH]; intros c Hc Hp Ha Hq.
  - simpl. unfold execute. rewrite app_nil_r in Hq.
    rewrite Hc, Hp, !app_nil_r, Hq. reflexivity.
  - simpl in Ha.
    destruct (execute_error (committed c) q') eqn:Hq'; [discriminate|].
    cbn [app exec_loop]. unfold execute at 1. unfold commit at 1.
    rewrite Hc, Hp, app_nil_r, Hq'.
    cbn [closed pending committed database trace].
    rewrite IH; cbn [closed pending committed database trace]; try reflexivity.
    + unfold statement_events. simpl. now rewrite <- !app_assoc.
    + exact Ha.
    + now rewrite <- app_assoc.
Qed.

End BatchExecution.

(** C7, counterexample.  On a read-only store the batches
    [["CREATE TABLE a (x TEXT);"]] and [["CREATE TABLE b (y TEXT);"]]
    fail with the same exception, the store's own: the method raises it
    again as it is and adds neither the statement nor its position. *)
Lemma batch_error_does_not_name_statement :
  exec_create_query readonly_store (mkConnection "db" false [] [] [])
                    ["CREATE TABLE a (x TEXT);"]
  = (inl (OperationalError "attempt to write a readonly database"),
     mkConnection "db" false [] [] [ExecuteFailed "CREATE TABLE a (x TEXT);"])
  /\ exec_create_query readonly_store (mkConnection "db" false [] [] [])
                       ["CREATE TABLE b (y TEXT);"]
     = (inl (OperationalError "attempt to write a readonly database"),
        mkConnection "db" false [] [] [ExecuteFailed "CREATE TABLE b (y TEXT);"])
  /\ ~ error_names_statement readonly_store.
Proof.
  split; [reflexivity|]. split; [reflexivity|].
  intros H.
  specialize (H (mkConnection "db" false [] [] [])
                ["CREATE TABLE a (x TEXT);"] ["CREATE TABLE b (y TEXT);"]
                _ _ _ "CREATE TABLE a (x TEXT);" "CREATE TABLE b (y TEXT);"
                eq_refl eq_refl eq_refl eq_refl).
  discriminate H.
Qed.

(** C7, as the code has it.  On an open connection with nothing
    pending: a batch the store accepts is executed in list order with a
    commit after each statement.  When the store accepts the statements
    of [pre] and refuses the next one, [q], the statements of [pre] are
    committed and stay so, [q] is the last statement attempted, nothing
    is rolled back, and the exception raised is the store's error for
    [q], unchanged. *)
Theorem exec_create_query_in_order
        (execute_error : list string -> string -> option string)
        (c : connection) (pre : list string) :
  closed c = false -> pending c = [] ->
  accepts execute_error (committed c) pre = true ->
  exec_create_query execute_error c pre
  = (inr tt,
     mkConnection (database c) false [] (committed c ++ pre)
                  (trace c ++ statement_events pre))
  /\ forall (q : string) (post : list string) (msg : string),
      execute_error (committed c ++ pre)%list q = Some msg ->
      exists c',
        exec_create_query execute_error c (pre ++ q :: post)
        = (inl (OperationalError msg), c')
        /\ committed c' = (committed c ++ pre)%list
        /\ pending c' = []
        /\ closed c' = false
        /\ trace c' = (trace c ++ statement_events pre ++ [ExecuteFailed q])%list
        /\ attempted (statement_events pre ++ [ExecuteFailed q]) = (pre ++ [q])%list
        /\ ~ In Rollback (statement_events pre ++ [ExecuteFailed q]).
Proof.
  intros Hc Hp Ha. split.
  - unfold exec_create_query, cursor. rewrite Hc.
    now apply exec_loop_accepted.
  - intros q post msg Hq.
    eexists. split.
    + unfold exec_create_query, cursor. rewrite Hc.
      now apply exec_loop_rejected.
    + cbn [committed pending closed trace].
      repeat (split; [reflexivity|]). split.
      * now rewrite attempted_statement_events.
      * intros Hin. apply in_app_or in Hin as [Hin|[Hin|[]]].
        -- now apply (no_rollback_in_statement_events pre).
        -- discriminate Hin.
Qed.

Lemma exec_create_query_in_order_twice :
  exec_create_query no_duplicate_store (mkConnection "db" false [] [] []) two_tables
  = (inr tt,
     mkConnection "db" false [] two_tables
                  [ Execute "CREATE TABLE a (x TEXT);"; Commit;
                    Execute "CREATE TABLE b (y TEXT);"; Commit ])
  /\ exists c',
      exec_create_query
        no_duplicate_store (mkConnection "db" false [] [] [])
        (two_tables ++ "CREATE TABLE a (x TEXT);" :: ["CREATE TABLE c (z TEXT);"])
      = (inl (OperationalError "table already exists"), c')
      /\ committed c' = two_tables
      /\ attempted (trace c') = (two_tables ++ ["CREATE TABLE a (x TEXT);"])%list.
Proof.
  destruct (exec_create_query_in_order
              no_duplicate_store (mkConnection "db" false [] [] []) two_tables
              eq_refl eq_refl eq_refl) as [Hok Hfail].
  split; [exact Hok|].
  destruct (Hfail "CREATE TABLE a (x TEXT);" ["CREATE TABLE c (z TEXT);"]
                  "table already exists" eq_refl)
    as [c' [Hrun [Hcom [_ [_ [Htr _]]]]]].
  exists c'. split; [exact Hrun|]. split; [exact Hcom|].
  rewrite Htr. reflexivity.
Defined.

(** ** The connector singleton *)

(** C8, counterexample.  As in [tests/test_db.py]: after
    [DataBaseConnector("test_db.db")], the request
    [DataBaseConnector("new_db")] returns the connector of
    [test_db.db] and opens nothing. *)
Lemma other_target_is_redirected :
  (exists c1 p1,
      DataBaseConnector (fun _ => None) fresh_process "test_db.db" = (inr c1, p1)
      /\ DataBaseConnector (fun _ => None) p1 "new_db" = (inr c1, p1)
      /\ _database_name c1 = "test_db.db"
      /\ map database (connections p1) = ["test_db.db"])
  /\ ~ other_target_not_redirected (fun _ => None).
Proof.
  split.
  - do 2 eexists. split; [reflexivity|]. repeat split.
  - intros H.
    assert (Hne : "test_db.db" <> "new_db") by discriminate.
    apply (H fresh_process "test_db.db" "new_db" _ _ _ _ Hne eq_refl eq_refl).
    reflexivity.
Qed.

Lemma DataBaseConnector_invariant (connect_error : string -> option string)
      (p : process) (t : string) :
  singleton_invariant p ->
  singleton_invariant (snd (DataBaseConnector connect_error p t)).
Proof.
  unfold singleton_invariant, DataBaseConnector, connector_init, connect,
    sqlite3_connect.
  destruct (_instance p) as [i|] eqn:Hi; intros H; simpl.
  - now rewrite Hi.
  - destruct (connect_error t); simpl.
    + now rewrite Hi.
    + now rewrite H.
Qed.

Lemma update_nth_length {A} (f : A -> A) (l : list A) :
  forall i, length (update_nth i f l) = length l.
Proof.
  induction l as [|a l IH]; intros [|i]; simpl; try reflexivity.
  now rewrite IH.
Qed.

Lemma close_invariant (p : process) (self : connector) :
  singleton_invariant p -> singleton_invariant (snd (close p self)).
Proof.
  unfold singleton_invariant, close.
  destruct (_connection self) as [i|]; simpl; [|tauto].
  destruct (_instance p); intros H.
  - now rewrite update_nth_length.
  - rewrite H. now destruct i.
Qed.

Lemma requests_invariant (connect_error : string -> option string)
      (rs : list request) :
  forall p, singleton_invariant p ->
            singleton_invariant (requests connect_error p rs).
Proof.
  unfold requests.
  induction rs as [|r rest IH]; intros p H; simpl; [exact H|].
  apply IH. destruct r as [t|]; simpl.
  - now apply DataBaseConnector_invariant.
  - destruct (_instance p) eqn:Hi; [|exact H]. now apply close_invariant.
Qed.

Lemma live_le_connections (p : process) :
  (length (live p) <= length (connections p))%nat.
Proof.
  unfold live. induction (connections p) as [|c l IH]; simpl; [lia|].
  destruct (negb (closed c)); simpl; lia.
Qed.

(** C8, as the code has it.  Whatever targets are requested and
    whenever the connector is closed in between, the process opens at
    most one connection, so at most one is live; and once a request has
    returned a connector, every later request returns that same
    connector and leaves the process as it is, for the same target and
    for any other. *)
Theorem connector_is_a_singleton (connect_error : string -> option string) :
  (forall rs,
      (length (connections (requests connect_error fresh_process rs)) <= 1)%nat
      /\ (length (live (requests connect_error fresh_process rs)) <= 1)%nat)
  /\ (forall p t c p1,
         DataBaseConnector connect_error p t = (inr c, p1) ->
         forall t', DataBaseConnector connect_error p1 t' = (inr c, p1)).
Proof.
  split.
  - intros rs.
    assert (H : singleton_invariant (requests connect_error fresh_process rs))
      by (apply requests_invariant; reflexivity).
    assert (Hc : (length (connections (requests connect_error fresh_process rs))
                  <= 1)%nat).
    { unfold singleton_invariant in H.
      destruct (_instance (requests connect_error fresh_process rs));
        rewrite H; simpl; lia. }
    split; [exact Hc|].
    pose proof (live_le_connections (requests connect_error fresh_process rs)).
    lia.
  - intros p t c p1 Hcall t'.
    unfold DataBaseConnector in Hcall.
    destruct (_instance p) as [i|] eqn:Hi.
    + injection Hcall as <- <-. unfold DataBaseConnector. now rewrite Hi.
    + destruct (connector_init connect_error p t) as [[e|i] p'];
        [discriminate|].
      injection Hcall as <- <-. reflexivity.
Qed.

Lemma connector_is_a_singleton_same_target :
  exists c p1,
    DataBaseConnector (fun _ => None) fresh_process "test_db.db" = (inr c, p1)
    /\ DataBaseConnector (fun _ => None) p1 "test_db.db" = (inr c, p1)
    /\ (length (connections p1) <= 1)%nat.
Proof.
  exists (mkConnector "test_db.db" (Some 0%nat)).
  exists (mkProcess (Some (mkConnector "test_db.db" (Some 0%nat)))
                    [mkConnection "test_db.db" false [] [] []]).
  split; [reflexivity|]. split.
  - apply (proj2 (connector_is_a_singleton (fun _ => None))
                 fresh_process "test_db.db"). reflexivity.
  - apply (proj1 (connector_is_a_singleton (fun _ => None))
                 [Construct "test_db.db"]).
Defined.

(** * Further properties of the fields *)

Lemma basic_checks_inv (self : Field) :
  CharField._basic_checks self = inr tt ->
  exists n, max_length self = PInt n /\ 2 <= n <= 255.
Proof.
  unfold CharField._basic_checks, run_checks; simpl.
  unfold CharField._check_max_length_and_type, CharField._check_max_length_limit,
    le_int, gt_int.
  destruct (max_length self) as [|b|n|s|t x]; simpl; try discriminate.
  - destruct b; discriminate.
  - intros H. exists n. split; [reflexivity|].
    destruct (Z.leb_spec n 1); simpl in H; [discriminate|].
    destruct (Z.gtb_spec n 255); simpl in H; [discriminate|]. lia.
Qed.

Lemma charfield_init_inv
        (ml : value) (pk u nl : bool) (d : value) (f : Field) :
  CharField.__init__ ml pk u nl d = inr f ->
  (exists n, ml = PInt n /\ 2 <= n <= 255)
  /\ cls f = CharFieldC /\ max_length f = ml /\ primary_key f = pk
  /\ unique f = u /\ default f = d
  /\ (if pk then nl = false /\ u = false /\ d = PNone /\ null f = false
      else if u then truthy d = false /\ null f = true
           else null f = nl /\ (nl = true \/ truthy d = true)).
Proof.
  unfold CharField.__init__. cbv zeta.
  destruct (CharField._basic_checks (mkField CharFieldC pk u nl ml d))
    as [e|[]] eqn:Hb; [discriminate|].
  apply basic_checks_inv in Hb. simpl in Hb. intros H. split; [exact Hb|].
  cbn [bind primary_key unique null] in H.
  destruct pk.
  - unfold CharField._primary_key_checks in H. simpl in H.
    destruct nl; simpl in H; [discriminate|].
    destruct d; simpl in H; try discriminate.
    destruct u; simpl in H; [discriminate|].
    injection H as <-. repeat split.
  - destruct u.
    + unfold CharField._unique_constraint_checks in H. simpl in H.
      destruct (truthy d) eqn:Ht; [discriminate|].
      injection H as <-. repeat split.
    + destruct nl; simpl in H.
      * injection H as <-. repeat split. now left.
      * unfold CharField._check_for_default_val in H. simpl in H.
        destruct (truthy d) eqn:Ht; simpl in H; [|discriminate].
        injection H as <-. repeat split. now right.
Qed.

(** X1.  Every [CharField] the constructor returns is a legal one: its
    [max_length] is an integer from 2 to 255 (a boolean does not pass),
    the attributes are the arguments, except that a unique field has
    [null] set; a key was given neither [null], nor [unique], nor a
    default; a unique field has no default that counts as true; and a
    field that is neither and is not nullable has a default that counts
    as true. *)
Theorem charfield_constructed_is_legal
        (ml : value) (pk u nl : bool) (d : value) (f : Field) :
  CharField.__init__ ml pk u nl d = inr f ->
  (exists n, ml = PInt n /\ 2 <= n <= 255)
  /\ cls f = CharFieldC /\ max_length f = ml /\ primary_key f = pk
  /\ unique f = u /\ default f = d
  /\ (if pk then nl = false /\ u = false /\ d = PNone /\ null f = false
      else if u then truthy d = false /\ null f = true
           else null f = nl /\ (nl = true \/ truthy d = true)).
Proof.
  exact (charfield_init_inv ml pk u nl d f).
Qed.

Lemma charfield_constructed_is_legal_unique :
  (exists n, PInt 50 = PInt n /\ 2 <= n <= 255)
  /\ cls (mkField CharFieldC false true true (PInt 50) PNone) = CharFieldC
  /\ max_length (mkField CharFieldC false true true (PInt 50) PNone) = PInt 50
  /\ primary_key (mkField CharFieldC false true true (PInt 50) PNone) = false
  /\ unique (mkField CharFieldC false true true (PInt 50) PNone) = true
  /\ default (mkField CharFieldC false true true (PInt 50) PNone) = PNone
  /\ truthy PNone = false
  /\ null (mkField CharFieldC false true true (PInt 50) PNone) = true.
Proof.
  exact (charfield_constructed_is_legal
           (PInt 50) false true false PNone
           (mkField CharFieldC false true true (PInt 50) PNone) eq_refl).
Defined.

(** X2.  With a valid [max_length], [primary_key=True] together with
    [null=True], with [unique=True] or with any default other than
    [None] is refused with the primary-key message. *)
Theorem charfield_primary_key_conflict (n : Z) (u nl : bool) (d : value) :
  2 <= n <= 255 ->
  nl = true \/ u = true \/ d <> PNone ->
  CharField.__init__ (PInt n) true u nl d
  = inl (ValueError
           "When using primary_key=True, do not set anything other than max_length").
Proof.
  intros Hn H.
  unfold CharField.__init__. cbv zeta.
  rewrite (basic_checks_valid (mkField CharFieldC true u nl (PInt n) d) n eq_refl Hn).
  cbn [bind primary_key]. unfold CharField._primary_key_checks. simpl.
  destruct nl; [reflexivity|]. destruct d; try reflexivity.
  destruct u; [reflexivity|].
  destruct H as [H|[H|H]]; [discriminate|discriminate|now elim H].
Qed.

Lemma charfield_primary_key_conflict_tests :
  CharField.__init__ (PInt 10) true false true PNone
  = inl (ValueError CharField.primary_key_msg)
  /\ CharField.__init__ (PInt 50) true true false (PStr "some text")
     = inl (ValueError CharField.primary_key_msg).
Proof.
  split.
  - apply (charfield_primary_key_conflict 10 false true PNone); [lia|].
    left. reflexivity.
  - apply (charfield_primary_key_conflict 50 true false (PStr "some text")); [lia|].
    right. left. reflexivity.
Defined.

(** X3.  With a valid [max_length], a field that is neither a key nor
    unique and has [null=False] is refused with the "needs a default
    value" message when its default is [None] or any value that counts
    as false, such as the empty string or 0. *)
Theorem charfield_needs_default (n : Z) (d : value) :
  2 <= n <= 255 ->
  truthy d = false ->
  CharField.__init__ (PInt n) false false false d
  = inl (ValueError
           "If null is False and primary_key=False, then it needs a default value").
Proof.
  intros Hn Hd.
  unfold CharField.__init__. cbv zeta.
  rewrite (basic_checks_valid (mkField CharFieldC false false false (PInt n) d)
                              n eq_refl Hn).
  cbn [bind primary_key unique null negb].
  unfold CharField._check_for_default_val. simpl. now rewrite Hd.
Qed.

Lemma charfield_needs_default_empty_string :
  CharField.__init__ (PInt 50) false false false (PStr "")
  = inl (ValueError CharField.needs_default_msg).
Proof.
  apply (charfield_needs_default 50 (PStr "")); [lia|reflexivity].
Defined.

(** X4.  The fragment of every [CharField] the constructor returns:
    [VARCHAR(n)], followed by [NOT NULL PRIMARY KEY] for a key, by
    [UNIQUE] alone for a unique field, and otherwise by [NOT NULL] when
    the field is not nullable and by the quoted default when one that
    counts as true was given. *)
Theorem charfield_constructed_fragment
        (ml : value) (pk u nl : bool) (d : value) (f : Field) :
  CharField.__init__ ml pk u nl d = inr f ->
  to_sql f
  = inr ("VARCHAR(" ++ str ml ++ ")"
           ++ (if pk then " NOT NULL PRIMARY KEY"
               else if u then " UNIQUE"
                    else (if nl then "" else " NOT NULL")
                           ++ (if truthy d then " DEFAULT '" ++ str d ++ "'" else ""))).
Proof.
  intros H.
  pose proof (charfield_init_inv ml pk u nl d f H) as Hl.
  destruct Hl as [_ [Hc [Hm [Hp [Hu [Hd Hcase]]]]]].
  destruct pk.
  - rewrite (charfield_to_sql_key f Hc Hp), Hm. reflexivity.
  - rewrite (charfield_to_sql_plain f Hc Hp), Hm.
    unfold FieldBase.check_null, FieldBase.check_primary_key,
      FieldBase.check_unique, FieldBase.check_default.
    rewrite Hp, Hu, Hd.
    destruct u.
    + destruct Hcase as [Ht Hn]. rewrite Ht, Hn. reflexivity.
    + destruct Hcase as [Hn _]. rewrite Hn.
      destruct nl, (truthy d); reflexivity.
Qed.

Lemma charfield_constructed_fragment_default :
  to_sql (mkField CharFieldC false false false (PInt 50) (PStr "default_value_here"))
  = inr "VARCHAR(50) NOT NULL DEFAULT 'default_value_here'".
Proof.
  apply (charfield_constructed_fragment
           (PInt 50) false false false (PStr "default_value_here")).
  reflexivity.
Defined.

(** X5.  [AutoField] is constructed only as [AutoField(primary_key=True,
    unique=False, null=False)]; any other argument is refused with "You
    can't provide any value for AutoField"; and the field compiles to
    [INTEGER PRIMARY KEY AUTOINCREMENT]. *)
Theorem autofield_construction (pk u nl : bool) :
  match AutoField.__init__ pk u nl with
  | inr f =>
      pk = true /\ u = false /\ nl = false
      /\ f = mkField AutoFieldC true false false PNone PNone
      /\ to_sql f = inr "INTEGER PRIMARY KEY AUTOINCREMENT"
  | inl e =>
      (pk = false \/ u = true \/ nl = true)
      /\ e = ValueError "You can't provide any value for AutoField"
  end.
Proof.
  destruct pk, u, nl; simpl; repeat split; auto.
Qed.

(** X6.  The constructors of the other classes.  [TextField],
    [DecimalField], [FloatField], [DateTimeField], [BooleanField],
    [ImageField] and [FileField] raise a [ValueError] exactly when
    [primary_key] or [unique] is set, and [IntegerField] exactly when
    [primary_key] is set; otherwise the field has the arguments as its
    attributes, the [file_path] of [ImageField] being dropped. *)
Theorem other_fields_construction (pk u nl : bool) (d : value) :
  refuses_key_and_unique (TextField.__init__ pk u nl d) TextFieldC pk u nl d
  /\ refuses_key_and_unique (DecimalField.__init__ pk u nl d) DecimalFieldC pk u nl d
  /\ refuses_key_and_unique (FloatField.__init__ pk u nl d) FloatFieldC pk u nl d
  /\ refuses_key_and_unique (BooleanField.__init__ pk u nl d) BooleanFieldC pk u nl d
  /\ refuses_key_and_unique (DateTimeField.__init__ pk u nl) DateTimeFieldC pk u nl PNone
  /\ refuses_key_and_unique (FileField.__init__ pk u nl) FileFieldC pk u nl PNone
  /\ refuses_key_and_unique (ImageField.__init__ pk u nl d) ImageFieldC pk u nl PNone
  /\ match IntegerField.__init__ pk u nl d with
     | inr f => pk = false /\ f = mkField IntegerFieldC false u nl PNone d
     | inl e => pk = true /\ e = ValueError "Instead use AutoField as Primary Key"
     end.
Proof.
  unfold refuses_key_and_unique.
  destruct pk, u; simpl; repeat split; eauto.
Qed.

(** X7.  [BooleanField], [ImageField] and [FileField] compile to the
    same fragment whether [null] is [True] or [False]: [NOT NULL] is
    never written for them. *)
Theorem null_is_not_compiled (nl : bool) (d : value) :
  (exists f, BooleanField.__init__ false false nl d = inr f
             /\ null f = nl
             /\ to_sql f = inr ("INTEGER DEFAULT " ++ str d))
  /\ (exists f, ImageField.__init__ false false nl d = inr f
                /\ null f = nl /\ to_sql f = inr "TEXT")
  /\ (exists f, FileField.__init__ false false nl = inr f
                /\ null f = nl /\ to_sql f = inr "TEXT").
Proof.
  split; [|split]; eexists; (split; [reflexivity|]); split; reflexivity.
Qed.

(** X8.  What becomes of the default of a [TextField], [IntegerField],
    [DecimalField] or [FloatField].  A default that counts as true never
    reaches the fragment: the text field has no DEFAULT clause and the
    numeric ones have [DEFAULT NULL].  A default that counts as false,
    [None] included, is written out as [str] gives it. *)
Theorem default_clause_of_text_and_numbers (u nl : bool) (d : value) :
  (exists f, TextField.__init__ false false nl d = inr f
             /\ to_sql f
                = inr ("TEXT" ++ (if nl then "" else " NOT NULL")
                         ++ (if truthy d then "" else " DEFAULT '" ++ str d ++ "'")))
  /\ (exists f, IntegerField.__init__ false u nl d = inr f
                /\ to_sql f
                   = inr ("INTEGER" ++ (if u then " UNIQUE" else "")
                            ++ (if nl then "" else " NOT NULL")
                            ++ (if truthy d then " DEFAULT NULL"
                                else " DEFAULT " ++ str d)))
  /\ (exists f, DecimalField.__init__ false false nl d = inr f
                /\ to_sql f
                   = inr ("DECIMAL" ++ (if nl then "" else " NOT NULL")
                            ++ (if truthy d then " DEFAULT NULL"
                                else " DEFAULT " ++ str d)))
  /\ (exists f, FloatField.__init__ false false nl d = inr f
                /\ to_sql f
                   = inr ("NUMERIC" ++ (if nl then "" else " NOT NULL")
                            ++ (if truthy d then " DEFAULT NULL"
                                else " DEFAULT " ++ str d))).
Proof.
  split; [|split; [|split]]; eexists; (split; [reflexivity|]);
    unfold to_sql; simpl;
    unfold TextField.to_sql, IntegerField.to_sql, DecimalField.to_sql,
      FloatField.to_sql; simpl;
    destruct u, nl, (truthy d); reflexivity.
Qed.

(** * Further properties of the models *)

Example table_name_examples :
  Model._get_table_name (mkClass "UserProfile" true PNone []) = "userprofile"
  /\ Model._get_table_name (mkClass "UserProfile" true (PStr "User_Table") [])
     = "User_Table".
Proof. split; reflexivity. Qed.

(** ** The class namespace *)

Lemma getitem_dict_set_same {A} (d : list (string * A)) (k : string) (v : A) :
  getitem (dict_set d k v) k = inr v.
Proof.
  induction d as [|[k' v'] d IH]; simpl.
  - now rewrite String.eqb_refl.
  - destruct (String.eqb_spec k' k) as [->|Hne]; simpl.
    + now rewrite String.eqb_refl.
    + destruct (String.eqb_spec k' k); [contradiction|exact IH].
Qed.

Lemma getitem_dict_set_other {A} (d : list (string * A)) (k k0 : string) (v : A) :
  k <> k0 -> getitem (dict_set d k v) k0 = getitem d k0.
Proof.
  intros Hne.
  induction d as [|[k' v'] d IH]; simpl.
  - destruct (String.eqb_spec k k0); [contradiction|reflexivity].
  - destruct (String.eqb_spec k' k) as [->|Hk]; simpl.
    + destruct (String.eqb_spec k k0); [contradiction|reflexivity].
    + destruct (String.eqb_spec k' k0); [reflexivity|exact IH].
Qed.

Lemma dict_set_keys {A} (d : list (string * A)) (k : string) (v : A) :
  map fst (dict_set d k v)
  = if existsb (String.eqb k) (map fst d) then map fst d
    else (map fst d ++ [k])%list.
Proof.
  induction d as [|[k' v'] d IH]; simpl; [reflexivity|].
  rewrite (String.eqb_sym k k').
  destruct (String.eqb_spec k' k) as [->|Hne]; simpl; [reflexivity|].
  rewrite IH. now destruct (existsb (String.eqb k) (map fst d)).
Qed.

Lemma dict_set_nodup {A} (d : list (string * A)) (k : string) (v : A) :
  NoDup (map fst d) -> NoDup (map fst (dict_set d k v)).
Proof.
  intros Hnd. rewrite dict_set_keys.
  destruct (existsb (String.eqb k) (map fst d)) eqn:He; [exact Hnd|].
  apply NoDup_app; [exact Hnd|repeat constructor; intros []|].
  intros x Hin [<-|[]].
  assert (Ht : existsb (String.eqb k) (map fst d) = true).
  { apply existsb_exists. exists k. split; [exact Hin|apply String.eqb_refl]. }
  congruence.
Qed.

Lemma dict_set_in {A} (d : list (string * A)) (k : string) (v : A)
      (kv : string * A) :
  In kv (dict_set d k v) -> kv = (k, v) \/ In kv d.
Proof.
  induction d as [|[k' v'] d IH]; simpl.
  - intros [<-|[]]. now left.
  - destruct (String.eqb_spec k' k) as [->|Hne]; simpl.
    + intros [<-|H]; [now left|right; now right].
    + intros [<-|H]; [right; now left|].
      destruct (IH H) as [->|Hin]; [now left|right; now right].
Qed.

Lemma fold_dict_set_nodup_keys {A} (l d : list (string * A)) :
  NoDup (map fst d) ->
  NoDup (map fst (fold_left (fun d kv => dict_set d (fst kv) (snd kv)) l d)).
Proof.
  revert d. induction l as [|[k v] l IH]; intros d Hnd; simpl; [exact Hnd|].
  apply IH. now apply dict_set_nodup.
Qed.

Lemma fold_dict_set_in {A} (l d : list (string * A)) (kv : string * A) :
  In kv (fold_left (fun d kv => dict_set d (fst kv) (snd kv)) l d) ->
  In kv d \/ In kv l.
Proof.
  revert d. induction l as [|[k v] l IH]; intros d; simpl; [now left|].
  intros H. destruct (IH _ H) as [Hd|Hl]; [|right; now right].
  destruct (dict_set_in d k v kv Hd) as [->|Hin]; [right; now left|now left].
Qed.

Lemma fold_dict_set_getitem_other {A} (l d : list (string * A)) (k : string) :
  ~ In k (map fst l) ->
  getitem (fold_left (fun d kv => dict_set d (fst kv) (snd kv)) l d) k
  = getitem d k.
Proof.
  revert d. induction l as [|[k' v'] l IH]; intros d Hn; simpl; [reflexivity|].
  rewrite IH.
  - apply getitem_dict_set_other. intros ->. apply Hn. now left.
  - intros Hin. apply Hn. now right.
Qed.

Lemma declared_fields_keys (items : list (string * attr)) (k : string) :
  In k (map fst (declared_fields items)) -> In k (map fst items).
Proof.
  induction items as [|[k' [f|v]] items IH]; simpl; [tauto| |].
  - intros [<-|H]; [now left|right; now apply IH].
  - intros H. right. now apply IH.
Qed.

Lemma declared_fields_nodup (items : list (string * attr)) :
  NoDup (map fst items) -> NoDup (map fst (declared_fields items)).
Proof.
  induction items as [|[k' [f|v]] items IH]; simpl; intros Hnd.
  - constructor.
  - inversion Hnd as [|? ? Hn Hr]; subst. constructor; [|now apply IH].
    intros Hin. apply Hn. now apply declared_fields_keys.
  - inversion Hnd; subst. now apply IH.
Qed.

Lemma declared_fields_none (items : list (string * attr)) :
  (forall kv, In kv items -> isinstance_Field (snd kv) = false) ->
  declared_fields items = [].
Proof.
  induction items as [|[k [f|v]] items IH]; intros H; simpl.
  - reflexivity.
  - specialize (H (k, AField f) (or_introl eq_refl)). discriminate H.
  - apply IH. intros kv Hin. apply H. now right.
Qed.


(** ** Columns and statements of any class *)

(** X10.  A model class without any field attribute, whatever else its
    body assigns, has the empty column list, and its statement is
    [CREATE TABLE name ();]: when the class inherits [Model] and can be
    called without arguments the manager builds that statement, and
    nothing refuses a table without columns; when calling it raises,
    that exception is the outcome. *)
Theorem model_without_fields (c : pyclass) :
  (forall kv, In kv (body c) -> isinstance_Field (snd kv) = false) ->
  Model.get_column_details c = inr ""
  /\ create_table_statement c
     = inr ("CREATE TABLE " ++ Model._get_table_name c ++ " ();")
  /\ MigrationManager._create_migrations [OClass c] []
     = if inherits_Model c
       then match instantiate c with
            | inl e => inl e
            | inr _ => inr ["CREATE TABLE " ++ Model._get_table_name c ++ " ();"]
            end
       else inl (ValueError MigrationManager.not_a_model_msg).
Proof.
  intros H.
  assert (Hf : declared_fields (__dict__ c) = []).
  { apply declared_fields_none. intros kv Hin. apply H.
    unfold __dict__ in Hin.
    destruct (fold_dict_set_in (body c) [] kv Hin) as [[]|Hb]. exact Hb. }
  destruct (get_column_details_spec c) as [cols [Hd Hc]].
  rewrite Hf in Hc. inversion Hc; subst.
  assert (Hs : create_table_statement c
               = inr ("CREATE TABLE " ++ Model._get_table_name c ++ " ();")).
  { unfold create_table_statement. rewrite Hd. cbn [bind join].
    now rewrite generate_table_eq. }
  split; [exact Hd|]. split; [exact Hs|].
  destruct (inherits_Model c) eqn:Hm.
  - destruct (instantiate c) as [e|[]] eqn:Hi.
    + now apply create_migrations_raise.
    + now rewrite (create_migrations_step c [] [] _ Hm Hi Hs).
  - simpl. now rewrite Hm.
Qed.

Lemma model_without_fields_settings :
  Model.get_column_details
    (mkClass "Settings" true PNone [("page_size", AValue (PInt 10))]) = inr ""
  /\ create_table_statement
       (mkClass "Settings" true PNone [("page_size", AValue (PInt 10))])
     = inr "CREATE TABLE settings ();"
  /\ MigrationManager._create_migrations
       [OClass (mkClass "Settings" true PNone [("page_size", AValue (PInt 10))])] []
     = inr ["CREATE TABLE settings ();"].
Proof.
  apply (model_without_fields
           (mkClass "Settings" true PNone [("page_size", AValue (PInt 10))])).
  intros kv [<-|[]]. reflexivity.
Defined.

(** X11.  Attributes that are not fields do not count: two classes whose
    bodies, each with distinct names, declare the same fields in the
    same order have the same column list, whatever other attributes and
    whatever class names they have. *)
Theorem other_attributes_are_skipped (c1 c2 : pyclass) :
  NoDup (map fst (body c1)) -> NoDup (map fst (body c2)) ->
  declared_fields (body c1) = declared_fields (body c2) ->
  Model.get_column_details c1 = Model.get_column_details c2.
Proof.
  intros H1 H2 Hf.
  destruct (get_column_details_spec c1) as [cols1 [Hd1 Hc1]].
  destruct (get_column_details_spec c2) as [cols2 [Hd2 Hc2]].
  rewrite (dict_of_distinct_names c1 H1) in Hc1.
  rewrite (dict_of_distinct_names c2 H2), <- Hf in Hc2.
  rewrite Hd1, Hd2.
  now rewrite (is_column_functional _ _ _ Hc1 Hc2).
Qed.

Lemma other_attributes_are_skipped_article :
  Model.get_column_details Article
  = Model.get_column_details
      (mkClass "Post" false (PStr "posts")
               [ ("title", AField (mkField CharFieldC true false false (PInt 50) PNone));
                 ("created", AField (mkField DateTimeFieldC false false true PNone PNone));
                 ("objects", AValue PNone) ]).
Proof.
  apply other_attributes_are_skipped.
  - simpl. repeat constructor; simpl; intuition discriminate.
  - simpl. repeat constructor; simpl; intuition discriminate.
  - reflexivity.
Defined.

(** X12.  The columns of a class have distinct names, whatever the class
    body assigns and however often; and a name keeps the value of its
    last assignment: that value is what the class namespace holds for
    it. *)
Theorem column_names_are_distinct (c : pyclass) :
  NoDup (map fst (declared_fields (__dict__ c)))
  /\ forall pre k a post,
      body c = (pre ++ (k, a) :: post)%list ->
      ~ In k (map fst post) ->
      getitem (__dict__ c) k = inr a.
Proof.
  split.
  - apply declared_fields_nodup. unfold __dict__.
    apply fold_dict_set_nodup_keys. constructor.
  - intros pre k a post Hb Hn. unfold __dict__. rewrite Hb.
    rewrite fold_left_app. simpl.
    rewrite fold_dict_set_getitem_other by exact Hn.
    apply getitem_dict_set_same.
Qed.

Lemma column_names_are_distinct_redeclared :
  getitem
    (__dict__ (mkClass "Draft" true PNone
                       [ ("title", AValue (PInt 1));
                         ("created", AValue (PInt 2));
                         ("title", AValue (PInt 3)) ]))
    "title"
  = inr (AValue (PInt 3)).
Proof.
  apply (proj2 (column_names_are_distinct
                  (mkClass "Draft" true PNone
                           [ ("title", AValue (PInt 1));
                             ("created", AValue (PInt 2));
                             ("title", AValue (PInt 3)) ]))
               [("title", AValue (PInt 1)); ("created", AValue (PInt 2))]
               "title" (AValue (PInt 3)) []).
  - reflexivity.
  - simpl. tauto.
Defined.

(** X13.  The statement of a model class whose fields are instances of
    the ten field classes.  For a subclass of [Model]: when calling the
    class without arguments raises, the manager fails with that
    exception; otherwise compiling succeeds whatever the field
    attributes hold, fields that no constructor would return included,
    and the statement is [CREATE TABLE], the table name, and in
    parentheses the comma-joined columns of the fields of the class
    namespace, each the attribute name as written, a space and the
    field's fragment, with a final semicolon. *)
Theorem statement_of_model_class (c : pyclass) :
  inherits_Model c = true ->
  exists cols,
    Forall2 is_column (declared_fields (__dict__ c)) cols
    /\ length cols = length (declared_fields (__dict__ c))
    /\ MigrationManager._create_migrations [OClass c] []
       = match instantiate c with
         | inl e => inl e
         | inr _ =>
             inr ["CREATE TABLE " ++ Model._get_table_name c ++ " ("
                    ++ join "," cols ++ ");"]
         end.
Proof.
  intros Hm.
  destruct (get_column_details_spec c) as [cols [Hd Hc]].
  exists cols. split; [exact Hc|]. split.
  - symmetry. exact (Forall2_length Hc).
  - destruct (instantiate c) as [e|[]] eqn:Hi.
    + now apply create_migrations_raise.
    + rewrite (create_migrations_step
                 c [] []
                 ("CREATE TABLE " ++ Model._get_table_name c ++ " ("
                    ++ join "," cols ++ ");") Hm Hi); [reflexivity|].
      unfold create_table_statement. rewrite Hd. cbn [bind].
      apply generate_table_eq.
Qed.

Lemma statement_of_model_class_examples :
  (exists cols,
      Forall2 is_column (declared_fields (__dict__ Article)) cols
      /\ length cols = 2%nat
      /\ MigrationManager._create_migrations [OClass Article] []
         = inr ["CREATE TABLE article (" ++ join "," cols ++ ");"])
  /\ (exists cols,
         Forall2 is_column (declared_fields (__dict__ Strict)) cols
         /\ length cols = 0%nat
         /\ MigrationManager._create_migrations [OClass Strict] []
            = inl (TypeError "Strict.__init__() missing 1 required positional argument: 'owner'")).
Proof.
  split.
  - apply (statement_of_model_class Article). reflexivity.
  - apply (statement_of_model_class Strict). reflexivity.
Defined.

(** * Further properties of the migration manager *)

Lemma create_migrations_acc (l : list pyobj) :
  forall schema',
    MigrationManager._create_migrations l schema'
    = bind (MigrationManager._create_migrations l [])
           (fun s => ret (schema' ++ s)%list).
Proof.
  induction l as [|o l IH]; intros schema'.
  - simpl. now rewrite app_nil_r.
  - destruct o as [c|v]; [|reflexivity].
    destruct (inherits_Model c) eqn:Hm.
    + destruct (instantiate c) as [e|[]] eqn:Hi.
      * now rewrite !(create_migrations_raise c l _ e Hm Hi).
      * destruct (create_table_statement_total c) as [q Hq].
        rewrite !(create_migrations_step c l _ q Hm Hi Hq).
        rewrite (IH (schema' ++ [q])%list), (IH ([] ++ [q])%list).
        destruct (MigrationManager._create_migrations l []) as [e|s]; simpl;
          [reflexivity|].
        now rewrite <- app_assoc.
    + simpl. rewrite Hm. reflexivity.
Qed.

(** X14.  The schema of a list of models is built entry by entry: when
    two lists compile, their concatenation compiles to the
    concatenation of their schemas, so the statement of a model does not
    depend on the models registered with it. *)
Theorem schema_of_concatenation (l1 l2 : list pyobj) (s1 s2 : list string) :
  MigrationManager._create_migrations l1 [] = inr s1 ->
  MigrationManager._create_migrations l2 [] = inr s2 ->
  MigrationManager._create_migrations (l1 ++ l2) [] = inr (s1 ++ s2)%list.
Proof.
  intros H1 H2.
  rewrite create_migrations_app, H1. cbn [bind].
  rewrite create_migrations_acc, H2. reflexivity.
Qed.

Lemma schema_of_concatenation_article :
  MigrationManager._create_migrations
    ([OClass Article] ++ [OClass (mkClass "Settings" true PNone [])]) []
  = inr ([ "CREATE TABLE article (title VARCHAR(50) NOT NULL PRIMARY KEY,created TEXT);" ]
           ++ [ "CREATE TABLE settings ();" ])%list.
Proof.
  apply schema_of_concatenation; reflexivity.
Defined.



(** * Further properties of batch execution *)

Section BatchExecutionAnyStore.

Variable execute_error : list string -> string -> option string.

Lemma exec_loop_appends (schema' : list string) :
  forall c,
    closed c = false ->
    exists events done rest,
      trace (snd (exec_loop execute_error c schema')) = (trace c ++ events)%list
      /\ ~ In Rollback events /\ ~ In Close events
      /\ schema' = (attempted events ++ rest)%list
      /\ committed (snd (exec_loop execute_error c schema'))
         = (committed c ++ done)%list
      /\ closed (snd (exec_loop execute_error c schema')) = false
      /\ database (snd (exec_loop execute_error c schema')) = database c.
Proof.
  induction schema' as [|q rest IH]; intros c Hc.
  - exists [], [], []. simpl. rewrite !app_nil_r. repeat split; auto.
  - cbn [exec_loop]. unfold execute. rewrite Hc.
    destruct (execute_error (committed c ++ pending c) q) as [msg|].
    + exists [ExecuteFailed q], [], rest. simpl. rewrite app_nil_r.
      repeat split; auto; intros [H|[]]; discriminate H.
    + unfold commit. cbn [closed pending committed database trace ret].
      destruct (IH (mkConnection (database c) false []
                                 (committed c ++ pending c ++ [q])
                                 ((trace c ++ [Execute q]) ++ [Commit])) eq_refl)
        as [events [done [rest' [Ht [Hr [Hcl [Hs [Hcm [Hclosed Hdb]]]]]]]]].
      cbn [closed pending committed database trace] in Ht, Hcm, Hclosed, Hdb.
      exists (Execute q :: Commit :: events), ((pending c ++ [q]) ++ done)%list, rest'.
      rewrite Ht, Hcm, Hclosed, Hdb. repeat split.
      * now rewrite <- !app_assoc.
      * intros [H|[H|H]]; [discriminate|discriminate|now apply Hr].
      * intros [H|[H|H]]; [discriminate|discriminate|now apply Hcl].
      * simpl. now rewrite <- Hs.
      * now rewrite <- !app_assoc.
Qed.

Lemma exec_loop_closed (schema' : list string) :
  forall c, closed c = false ->
            closed (snd (exec_loop execute_error c schema')) = false.
Proof.
  intros c Hc.
  destruct (exec_loop_appends schema' c Hc) as [? [? [? H]]]. tauto.
Qed.

Lemma exec_loop_app (s1 s2 : list string) :
  forall c,
    closed c = false ->
    exec_loop execute_error c (s1 ++ s2)
    = match exec_loop execute_error c s1 with
      | (inl e, c') => (inl e, c')
      | (inr _, c') => exec_loop execute_error c' s2
      end.
Proof.
  induction s1 as [|q rest IH]; intros c Hc; [reflexivity|].
  cbn [app exec_loop]. unfold execute. rewrite Hc.
  destruct (execute_error (committed c ++ pending c) q) as [msg|]; [reflexivity|].
  unfold commit. cbn [closed ret]. now apply IH.
Qed.

(** X16.  Whatever the store answers and whatever state the connection
    is in, [exec_create_query] only adds to the connection: the trace of
    before is a prefix of the trace of after, and what it adds holds no
    rollback and no close; the statements it hands to the store are a
    prefix of the batch, in the order of the batch; the statements
    committed before stay committed; and the connection is not closed
    or pointed at another database. *)
Theorem exec_create_query_only_adds (c : connection) (schema' : list string) :
  exists events done rest,
    trace (snd (exec_create_query execute_error c schema')) = (trace c ++ events)%list
    /\ ~ In Rollback events /\ ~ In Close events
    /\ schema' = (attempted events ++ rest)%list
    /\ committed (snd (exec_create_query execute_error c schema'))
       = (committed c ++ done)%list
    /\ closed (snd (exec_create_query execute_error c schema')) = closed c
    /\ database (snd (exec_create_query execute_error c schema')) = database c.
Proof.
  unfold exec_create_query, cursor.
  destruct (closed c) eqn:Hc.
  - exists [], [], schema'. simpl. rewrite !app_nil_r. repeat split; auto.
  - destruct (exec_loop_appends schema' c Hc)
      as [events [done [rest H]]].
    exists events, done, rest. exact H.
Qed.

(** X17.  A batch can be cut anywhere: executing [s1 ++ s2] is executing
    [s1] and then, when that raised nothing, [s2] on the connection as
    [s1] left it; when [s1] raised, [s2] is not run at all. *)
Theorem exec_create_query_of_concatenation
        (c : connection) (s1 s2 : list string) :
  exec_create_query execute_error c (s1 ++ s2)
  = match exec_create_query execute_error c s1 with
    | (inl e, c') => (inl e, c')
    | (inr _, c') => exec_create_query execute_error c' s2
    end.
Proof.
  unfold exec_create_query, cursor.
  destruct (closed c) eqn:Hc; [reflexivity|].
  rewrite (exec_loop_app s1 s2 c Hc).
  pose proof (exec_loop_closed s1 c Hc) as Hcl.
  destruct (exec_loop execute_error c s1) as [[e|[]] c']; [reflexivity|].
  simpl in Hcl. cbn [ret]. now rewrite Hcl.
Qed.

(** X18.  Applying a manager twice.  On an open connection with nothing
    pending, when the store accepts the schema and then refuses its
    first statement because it is in effect, the first [apply] commits
    the whole schema and the second raises the store's error on the
    first statement: nothing more is committed, and the one failed
    attempt is all the second [apply] adds to the trace. *)
Theorem apply_twice (m : manager) (c : connection)
        (q : string) (rest : list string) (msg : string) :
  schema m = q :: rest ->
  closed c = false -> pending c = [] ->
  accepts execute_error (committed c) (schema m) = true ->
  execute_error (committed c ++ schema m) q = Some msg ->
  exists c1 c2,
    MigrationManager_apply execute_error m c = (inr tt, c1)
    /\ MigrationManager_apply execute_error m c1 = (inl (OperationalError msg), c2)
    /\ committed c1 = (committed c ++ schema m)%list
    /\ committed c2 = committed c1
    /\ trace c2 = (trace c1 ++ [ExecuteFailed q])%list.
Proof.
  intros Hs Hc Hp Ha Hq.
  pose (c1 := mkConnection (database c) false [] (committed c ++ schema m)
                           (trace c ++ statement_events (schema m))).
  exists c1.
  exists (mkConnection (database c) false [] (committed c ++ schema m)
                       (trace c1 ++ [ExecuteFailed q])).
  split; [|split; [|repeat split]].
  - unfold MigrationManager_apply, exec_create_query, cursor. rewrite Hc.
    now apply exec_loop_accepted.
  - unfold MigrationManager_apply, exec_create_query, cursor.
    cbn [closed c1 ret].
    replace (exec_loop execute_error c1 (schema m))
      with (exec_loop execute_error c1 ([] ++ q :: rest)%list)
      by (now rewrite Hs).
    rewrite (exec_loop_rejected execute_error [] q rest msg c1);
      try reflexivity.
    + cbn [c1 database committed trace statement_events flat_map app].
      now rewrite !app_nil_r.
    + cbn [c1 committed]. now rewrite app_nil_r.
Qed.

End BatchExecutionAnyStore.

Lemma apply_twice_article :
  exists c1 c2,
    MigrationManager_apply no_duplicate_store article_manager
                           (mkConnection "db" false [] [] [])
    = (inr tt, c1)
    /\ MigrationManager_apply no_duplicate_store article_manager c1
       = (inl (OperationalError "table already exists"), c2)
    /\ committed c1 = schema article_manager
    /\ committed c2 = committed c1
    /\ trace c2
       = (trace c1
            ++ [ExecuteFailed
                  "CREATE TABLE article (title VARCHAR(50) NOT NULL PRIMARY KEY,created TEXT);"])%list.
Proof.
  apply (apply_twice no_duplicate_store article_manager
                     (mkConnection "db" false [] [] [])
                     "CREATE TABLE article (title VARCHAR(50) NOT NULL PRIMARY KEY,created TEXT);"
                     [] "table already exists"); reflexivity.
Defined.



(** * Further properties of the connector *)

(** X20.  A request that cannot open its database raises an [Exception]
    with the text of the store's error and leaves the process as it
    was, without an instance; the next request whose database opens
    becomes the singleton, with one connection to its own target, and
    is returned by every request after it. *)
Theorem failed_connect_is_retried
        (connect_error : string -> option string)
        (p : process) (t1 t2 msg : string) :
  _instance p = None ->
  connect_error t1 = Some msg ->
  connect_error t2 = None ->
  DataBaseConnector connect_error p t1 = (inl (Exception msg), p)
  /\ exists c p2,
      DataBaseConnector connect_error p t2 = (inr c, p2)
      /\ _database_name c = t2
      /\ _instance p2 = Some c
      /\ connections p2 = (connections p ++ [mkConnection t2 false [] [] []])%list
      /\ forall t, DataBaseConnector connect_error p2 t = (inr c, p2).
Proof.
  intros Hi H1 H2.
  unfold DataBaseConnector, connector_init, connect, sqlite3_connect.
  rewrite Hi. cbn [_connection _database_name]. rewrite H1, H2. split.
  - reflexivity.
  - do 2 eexists. split; [reflexivity|]. repeat split.
Qed.

Lemma failed_connect_is_retried_missing_path :
  DataBaseConnector one_missing_path fresh_process "/no/such/dir/app.db"
  = (inl (Exception "unable to open database file"), fresh_process)
  /\ exists c p2,
      DataBaseConnector one_missing_path fresh_process "app.db" = (inr c, p2)
      /\ _database_name c = "app.db"
      /\ _instance p2 = Some c
      /\ connections p2 = [mkConnection "app.db" false [] [] []]
      /\ forall t, DataBaseConnector one_missing_path p2 t = (inr c, p2).
Proof.
  apply (failed_connect_is_retried one_missing_path fresh_process
                                   "/no/such/dir/app.db" "app.db"
                                   "unable to open database file");
    reflexivity.
Defined.

(** X21.  Closing does not free the singleton.  After the first
    successful request and [close()] on its connector, the process has
    no live connection, every later request, for any target, returns
    the same connector with the closed connection, none is opened, and
    [exec_create_query] on that connection raises "Cannot operate on a
    closed database." for every batch, the empty one included. *)
Theorem closed_connector_is_returned
        (connect_error : string -> option string)
        (execute_error : list string -> string -> option string)
        (t : string) :
  connect_error t = None ->
  exists c conn,
    requests connect_error fresh_process [Construct t; CloseConnector]
    = mkProcess (Some c) [conn]
    /\ _connection c = Some 0%nat
    /\ database conn = t /\ closed conn = true
    /\ live (mkProcess (Some c) [conn]) = []
    /\ (forall t',
           DataBaseConnector connect_error (mkProcess (Some c) [conn]) t'
           = (inr c, mkProcess (Some c) [conn]))
    /\ (forall schema',
           exec_create_query execute_error conn schema'
           = (inl (ProgrammingError "Cannot operate on a closed database."), conn)).
Proof.
  intros Ht.
  exists (mkConnector t (Some 0%nat)), (mkConnection t true [] [] [Close]).
  split.
  - unfold requests, serve, DataBaseConnector, connector_init, connect,
      sqlite3_connect. simpl. rewrite Ht. reflexivity.
  - repeat split.
Qed.

Lemma closed_connector_is_returned_example :
  exists c conn,
    requests (fun _ => None) fresh_process [Construct "test_db.db"; CloseConnector]
    = mkProcess (Some c) [conn]
    /\ _connection c = Some 0%nat
    /\ database conn = "test_db.db" /\ closed conn = true
    /\ live (mkProcess (Some c) [conn]) = []
    /\ (forall t',
           DataBaseConnector (fun _ => None) (mkProcess (Some c) [conn]) t'
           = (inr c, mkProcess (Some c) [conn]))
    /\ (forall schema',
           exec_create_query readonly_store conn schema'
           = (inl (ProgrammingError "Cannot operate on a closed database."), conn)).
Proof.
  apply (closed_connector_is_returned (fun _ => None) readonly_store "test_db.db").
  reflexivity.
Defined.

(** * The CharField of [fields.py] against the one of [orm.py] *)

(** X22.  The two copies of [CharField] agree on every field that is a
    key or is not unique: for all arguments with [primary_key=True] or
    [unique=False] they construct the same field or both raise, with
    the same exception except for the wording of the primary-key
    message. *)
Theorem charfield_copies_agree (ml : value) (pk u nl : bool) (d : value) :
  pk = true \/ u = false ->
  match CharField.__init__ ml pk u nl d, FieldsPy.__init__ ml pk u nl d with
  | inr f, inr f' => f = f'
  | inl e, inl e' =>
      e = e'
      \/ (e = ValueError CharField.primary_key_msg
          /\ e' = ValueError FieldsPy.primary_key_msg)
  | _, _ => False
  end.
Proof.
  intros H.
  unfold CharField.__init__, FieldsPy.__init__. cbv zeta.
  destruct (CharField._basic_checks (mkField CharFieldC pk u nl ml d))
    as [e|[]]; cbn [bind]; [now left|].
  cbn [primary_key unique null].
  destruct pk.
  - unfold CharField._primary_key_checks, FieldsPy._primary_key_checks.
    cbn [primary_key unique null default andb].
    destruct (nl || negb (is_none d) || u); cbn [bind]; [right; now split|reflexivity].
  - destruct H as [H | ->]; [discriminate|].
    unfold CharField._check_for_default_val, FieldsPy._default_value_checks.
    cbn [primary_key unique null default negb andb].
    destruct nl; cbn [negb andb bind]; [reflexivity|].
    destruct (truthy d); cbn [negb bind]; [reflexivity|now left].
Qed.

Lemma charfield_copies_agree_key :
  match CharField.__init__ (PInt 50) true true false PNone,
        FieldsPy.__init__ (PInt 50) true true false PNone with
  | inr f, inr f' => f = f'
  | inl e, inl e' =>
      e = e'
      \/ (e = ValueError CharField.primary_key_msg
          /\ e' = ValueError FieldsPy.primary_key_msg)
  | _, _ => False
  end.
Proof.
  apply (charfield_copies_agree (PInt 50) true true false PNone).
  left. reflexivity.
Defined.

(** X23.  On unique fields the two copies differ.  For a valid
    [max_length] and [unique=True] without a key: [fields.py] refuses
    [null=True] with "On a unique field you can't set null as True",
    where [orm.py] decides on the default alone; and with [null=False]
    and no default that counts as true both construct the field, but
    [fields.py] leaves [null] at [False] and compiles to
    [VARCHAR(n) NOT NULL UNIQUE] where [orm.py] sets [null] and compiles
    to [VARCHAR(n) UNIQUE]. *)
Theorem charfield_copies_differ_on_unique (n : Z) (d : value) :
  2 <= n <= 255 ->
  FieldsPy.__init__ (PInt n) false true true d
  = inl (ValueError "On a unique field you can't set null as True")
  /\ (truthy d = true ->
      FieldsPy.__init__ (PInt n) false true false d
      = inl (ValueError CharField.unique_default_msg))
  /\ (truthy d = false ->
      FieldsPy.__init__ (PInt n) false true false d
      = inr (mkField CharFieldC false true false (PInt n) d)
      /\ to_sql (mkField CharFieldC false true false (PInt n) d)
         = inr ("VARCHAR(" ++ str_int n ++ ") NOT NULL UNIQUE")
      /\ CharField.__init__ (PInt n) false true false d
         = inr (mkField CharFieldC false true true (PInt n) d)
      /\ to_sql (mkField CharFieldC false true true (PInt n) d)
         = inr ("VARCHAR(" ++ str_int n ++ ") UNIQUE")).
Proof.
  intros Hn.
  assert (Hb : forall nl,
             CharField._basic_checks (mkField CharFieldC false true nl (PInt n) d)
             = inr tt).
  { intros nl. now apply basic_checks_valid with n. }
  split; [|split].
  - unfold FieldsPy.__init__. cbv zeta. rewrite Hb. reflexivity.
  - intros Ht. unfold FieldsPy.__init__. cbv zeta. rewrite Hb.
    cbn [bind primary_key unique].
    unfold FieldsPy._unique_constraint_checks. simpl. now rewrite Ht.
  - intros Ht. split; [|split; [|split]].
    + unfold FieldsPy.__init__. cbv zeta. rewrite Hb.
      cbn [bind primary_key unique].
      unfold FieldsPy._unique_constraint_checks. simpl. now rewrite Ht.
    + rewrite charfield_to_sql_plain by reflexivity.
      unfold FieldBase.check_null, FieldBase.check_primary_key,
        FieldBase.check_unique, FieldBase.check_default. simpl.
      now rewrite Ht.
    + unfold CharField.__init__. cbv zeta. rewrite Hb.
      cbn [bind primary_key unique].
      unfold CharField._unique_constraint_checks. simpl. now rewrite Ht.
    + rewrite charfield_to_sql_plain by reflexivity.
      unfold FieldBase.check_null, FieldBase.check_primary_key,
        FieldBase.check_unique, FieldBase.check_default. simpl.
      now rewrite Ht.
Qed.

Lemma charfield_copies_differ_on_unique_50 :
  FieldsPy.__init__ (PInt 50) false true true PNone
  = inl (ValueError FieldsPy.unique_null_msg)
  /\ FieldsPy.__init__ (PInt 50) false true false PNone
     = inr (mkField CharFieldC false true false (PInt 50) PNone)
  /\ to_sql (mkField CharFieldC false true false (PInt 50) PNone)
     = inr "VARCHAR(50) NOT NULL UNIQUE".
Proof.
  assert (Hn : 2 <= 50 <= 255) by lia.
  split.
  - exact (proj1 (charfield_copies_differ_on_unique 50 PNone Hn)).
  - split.
    + exact (proj1 (proj2 (proj2 (charfield_copies_differ_on_unique 50 PNone Hn))
                          eq_refl)).
    + exact (proj1 (proj2 (proj2 (proj2 (charfield_copies_differ_on_unique
                                           50 PNone Hn))
                                 eq_refl))).
Defined.
